(** * Model selectors of the sign-language recogniser

    A shallow embedding of [recognizer/my_model_selectors.py]: the base
    class [ModelSelector] and the four strategies [SelectorConstant],
    [SelectorBIC], [SelectorDIC] and [SelectorCV].

    Python floats are IEEE binary64 numbers and are modelled by Rocq's
    primitive floats; Python ints by [Z]; a raised exception by the
    [Raise] constructor of [result]; Python's [None] by [option].  The
    libraries the module calls (hmmlearn's [GaussianHMM], libm's [log],
    numpy's [mean]) are an interface, the class [Externals].  The calls
    to [warnings.filterwarnings] and the lines printed under [verbose] do
    not change what a selector returns and are left out. *)

From Stdlib Require Import String.
From Stdlib Require Import ZArith List Bool Lia PeanoNat Permutation.
From Stdlib Require Import Floats.
Import ListNotations.

Open Scope Z_scope.

(** ** Exceptions and fallible computations *)

(** The exception classes that can reach a handler of the module.  All of
    them derive from [Exception], so both the bare [except:] and
    [except Exception:] catch every one of them. *)
Inductive exn : Set :=
| KeyError
| IndexError
| AttributeError
| UnboundLocalError
| ValueError
| ZeroDivisionError
| OverflowError
| NotFittedError.

Inductive result (A : Type) : Type :=
| Ok (a : A)
| Raise (e : exn).
Arguments Ok {A} a.
Arguments Raise {A} e.

Definition bind {A B : Type} (c : result A) (k : A -> result B) : result B :=
  match c with
  | Ok a => k a
  | Raise e => Raise e
  end.

Declare Scope py_scope.
Delimit Scope py_scope with py.
Notation "x <- c ;; k" := (bind c (fun x => k))
  (at level 61, c at next level, right associativity) : py_scope.
Notation "' p <- c ;; k" := (bind c (fun x => let p := x in k))
  (at level 61, p pattern, c at next level, right associativity) : py_scope.
Open Scope py_scope.

Definition is_ok {A : Type} (c : result A) : bool :=
  match c with Ok _ => true | Raise _ => false end.

(** ** Numbers *)

(** [float(z)] for a Python int: the nearest binary64 number, ties to
    even; [OverflowError] when that rounding leaves the finite range. *)
Definition float_of_int (z : Z) : result float :=
  let f := SF2Prim (binary_normalize prec emax z 0 false) in
  if is_infinity f then Raise OverflowError else Ok f.

(** A Python number that is either still an int or already a float: the
    accumulator [sc] of the DIC loop starts as the int [0]. *)
Inductive pynum : Set :=
| PyInt (z : Z)
| PyFloat (f : float).

(** [acc + f] for a float [f]: an int accumulator is converted first. *)
Definition py_add_float (acc : pynum) (f : float) : result pynum :=
  match acc with
  | PyInt z => zf <- float_of_int z ;; Ok (PyFloat (zf + f)%float)
  | PyFloat a => Ok (PyFloat (a + f)%float)
  end.

(** [acc / k] for a Python int [k]: true division of Python numbers,
    [ZeroDivisionError] when [k] is zero.  ([SelectorDIC] meets a zero
    divisor only while [acc] is still the int [0].) *)
Definition py_truediv_int (acc : pynum) (k : Z) : result float :=
  if k =? 0 then Raise ZeroDivisionError
  else
    match acc with
    | PyInt z =>
        zf <- float_of_int z ;; kf <- float_of_int k ;; Ok (zf / kf)%float
    | PyFloat a => kf <- float_of_int k ;; Ok (a / kf)%float
    end.

(** [range(lo, hi)]. *)
Definition py_range (lo hi : Z) : list Z :=
  map (fun i => lo + Z.of_nat i) (seq 0 (Z.to_nat (hi - lo))).

(** ** Data *)

Definition frame := list float.
Definition sequence := list frame.

(** A Python dict with string keys, in insertion order. *)
Definition dict (V : Type) := list (string * V).

Fixpoint dict_get {V : Type} (d : dict V) (k : string) : result V :=
  match d with
  | [] => Raise KeyError
  | (k', v) :: d' => if String.eqb k' k then Ok v else dict_get d' k
  end.

Definition well_formed_dict {V : Type} (d : dict V) : Prop :=
  NoDup (map fst d).

(** Modelled from the spec: [asl_utils.combine_sequences] is not among the
    sources.  Given utterance indices and a word's sequences it produces one
    flattened observation array and the list of the lengths of the chosen
    sequences, one per index, frames kept in order.  An index outside the
    list is Python's [IndexError]. *)
Fixpoint select_sequences (split_index_list : list nat) (sequences : list sequence)
  : result (list sequence) :=
  match split_index_list with
  | [] => Ok []
  | idx :: rest =>
      match nth_error sequences idx with
      | None => Raise IndexError
      | Some s => fold <- select_sequences rest sequences ;; Ok (s :: fold)
      end
  end.

Definition combine_sequences (split_index_list : list nat) (sequences : list sequence)
  : result (list frame * list Z) :=
  sequences_fold <- select_sequences split_index_list sequences ;;
  Ok (concat sequences_fold,
      map (fun sublist : sequence => Z.of_nat (length sublist)) sequences_fold).

(** ** The external libraries *)

(** The constructor arguments of [GaussianHMM]. *)
Record hmm_args : Set := {
  n_components : Z;
  covariance_type : string;
  n_iter : Z;
  hmm_random_state : Z;
  hmm_verbose : bool
}.

Class Externals : Type := {
  (** what [fit] sets on the object *)
  params : Type;
  (** [GaussianHMM(args).fit(X, lengths)]: deterministic, the seed is an argument *)
  hmm_fit : hmm_args -> list frame -> list Z -> result params;
  (** [model.score(X, lengths)] of a fitted model *)
  hmm_score : params -> list frame -> list Z -> result float;
  (** [model.n_features] of a fitted model *)
  hmm_n_features : params -> Z;
  (** [math.log] at a positive int *)
  libm_log : Z -> float;
  (** [np.mean] at a non-empty list of floats *)
  np_mean : list float -> float
}.

Section Selectors.

Context {ext : Externals}.

(** A [GaussianHMM] object: its arguments, and its fitted attributes once
    [fit] has returned.  An object whose [fit] raised is kept as not
    fitted. *)
Record GaussianHMM : Type := {
  args : hmm_args;
  fitted : option params
}.

Definition GaussianHMM_new (n : Z) (random_state : Z) (verbose : bool) : GaussianHMM :=
  {| args := {| n_components := n; covariance_type := "diag"; n_iter := 1000;
                hmm_random_state := random_state; hmm_verbose := verbose |};
     fitted := None |}.

(** [m.fit(X, lengths)] returns the object itself, now fitted. *)
Definition fit (m : GaussianHMM) (X : list frame) (lengths : list Z) : result GaussianHMM :=
  p <- hmm_fit (args m) X lengths ;;
  Ok {| args := args m; fitted := Some p |}.

Definition score (m : GaussianHMM) (X : list frame) (lengths : list Z) : result float :=
  match fitted m with
  | None => Raise NotFittedError
  | Some p => hmm_score p X lengths
  end.

Definition n_features (m : GaussianHMM) : result Z :=
  match fitted m with
  | None => Raise AttributeError
  | Some p => Ok (hmm_n_features p)
  end.

Definition is_fitted (m : GaussianHMM) : bool :=
  match fitted m with Some _ => true | None => false end.

Definition math_log (z : Z) : result float :=
  if z <=? 0 then Raise ValueError else Ok (libm_log z).

(** ** ModelSelector *)

Record ModelSelector : Type := {
  words : dict (list sequence);
  hwords : dict (list frame * list Z);
  sequences : list sequence;
  X : list frame;
  lengths : list Z;
  this_word : string;
  n_constant : Z;
  min_n_components : Z;
  max_n_components : Z;
  random_state : Z;
  verbose : bool
}.

(** [ModelSelector.__init__]. *)
Definition ModelSelector_init
  (all_word_sequences : dict (list sequence))
  (all_word_Xlengths : dict (list frame * list Z))
  (word : string) (n_const min_n max_n seed : Z) (verb : bool)
  : result ModelSelector :=
  seqs <- dict_get all_word_sequences word ;;
  '(x, l) <- dict_get all_word_Xlengths word ;;
  Ok {| words := all_word_sequences; hwords := all_word_Xlengths;
        sequences := seqs; X := x; lengths := l; this_word := word;
        n_constant := n_const; min_n_components := min_n;
        max_n_components := max_n; random_state := seed; verbose := verb |}.

(** The assignment [self.X, self.lengths = ...]. *)
Definition set_Xlengths (self : ModelSelector) (x : list frame) (l : list Z) : ModelSelector :=
  {| words := words self; hwords := hwords self; sequences := sequences self;
     X := x; lengths := l; this_word := this_word self;
     n_constant := n_constant self; min_n_components := min_n_components self;
     max_n_components := max_n_components self; random_state := random_state self;
     verbose := verbose self |}.

(** [base_model]: the bare [except:] turns every exception of the trainer
    into [None].  The lines printed under [verbose] are not modelled. *)
Definition base_model (self : ModelSelector) (num_states : Z) : option GaussianHMM :=
  match fit (GaussianHMM_new num_states (random_state self) false) (X self) (lengths self) with
  | Ok hmm_model => Some hmm_model
  | Raise _ => None
  end.

(** ** SelectorConstant *)

Definition SelectorConstant_select (self : ModelSelector) : option GaussianHMM :=
  let best_num_components := n_constant self in
  base_model self best_num_components.

(** ** SelectorBIC *)

(** [range(len(self.sequences))]. *)
Definition all_indices (self : ModelSelector) : list nat :=
  seq 0 (length (sequences self)).

(** [get_model_score]: the operands are evaluated left to right, so the
    score of the model comes before [model.n_features] and [math.log]; a
    [None] from [base_model] is an [AttributeError] at [model.score]. *)
Definition get_model_score (self : ModelSelector) (n : Z) : result float :=
  '(X, l) <- combine_sequences (all_indices self) (sequences self) ;;
  let model := base_model self n in
  match model with
  | None => Raise AttributeError
  | Some model =>
      logL <- score model X l ;;
      minus_two <- float_of_int (-2) ;;
      D <- n_features model ;;
      logN <- math_log (Z.of_nat (length (sequences self))) ;;
      p <- float_of_int (n ^ 2 + 2 * n * D - 1) ;;
      Ok (minus_two * logL + p * logN)%float
  end.

(** The local variable [model] of [SelectorBIC.select] is unbound until
    the first improvement: [None] here, [Some m] once it holds the Python
    value [m] (itself a model or Python's [None]). *)
Record bic_locals : Type := {
  bic_self : ModelSelector;
  best_score_so_far : float;
  bic_model : option (option GaussianHMM)
}.

(** The [for] loop of [SelectorBIC.select].  An exception leaves the loop
    at once; the selector it was raised on is returned with it, since the
    handler goes on with that object. *)
Fixpoint bic_loop (candidates : list Z) (st : bic_locals)
  : ModelSelector * result bic_locals :=
  match candidates with
  | [] => (bic_self st, Ok st)
  | n_components :: rest =>
      match get_model_score (bic_self st) n_components with
      | Raise e => (bic_self st, Raise e)
      | Ok model_score =>
          if (model_score <? best_score_so_far st)%float then
            match combine_sequences (all_indices (bic_self st)) (sequences (bic_self st)) with
            | Raise e => (bic_self st, Raise e)
            | Ok (x, l) =>
                let self' := set_Xlengths (bic_self st) x l in
                let model := base_model self' n_components in
                bic_loop rest {| bic_self := self';
                                 best_score_so_far := model_score;
                                 bic_model := Some model |}
            end
          else bic_loop rest st
      end
  end.

(** The body of the [try] of [SelectorBIC.select], [return model] included. *)
Definition bic_try (self : ModelSelector) : ModelSelector * result (option GaussianHMM) :=
  let candidates := py_range (min_n_components self) (max_n_components self + 1) in
  match bic_loop candidates {| bic_self := self;
                               best_score_so_far := infinity;
                               bic_model := None |} with
  | (self', Raise e) => (self', Raise e)
  | (self', Ok st) =>
      match bic_model st with
      | None => (self', Raise UnboundLocalError)
      | Some model => (self', Ok model)
      end
  end.

(** [SelectorBIC.select]: the returned value and the selector as the call
    leaves it. *)
Definition SelectorBIC_select (self : ModelSelector) : option GaussianHMM * ModelSelector :=
  match bic_try self with
  | (self', Ok model) => (model, self')
  | (self', Raise _) => (base_model self' (n_constant self'), self')
  end.

(** ** SelectorDIC *)

(** The inner loop over [self.hwords.items()]: the scores of the other
    words are added to [sc] in the order of the dict. *)
Fixpoint dic_others (hmm_model : GaussianHMM) (this : string)
  (items : dict (list frame * list Z)) (sc : pynum) : result pynum :=
  match items with
  | [] => Ok sc
  | (word, (x, lengths)) :: rest =>
      if negb (String.eqb word this) then
        s <- score hmm_model x lengths ;;
        sc' <- py_add_float sc s ;;
        dic_others hmm_model this rest sc'
      else dic_others hmm_model this rest sc
  end.

(** The body of the [try] up to the assignment of [dic]. *)
Definition dic_score (self : ModelSelector) (nc : Z) : result (float * GaussianHMM) :=
  let hmm_model := GaussianHMM_new nc (random_state self) (verbose self) in
  hmm_model <- fit hmm_model (X self) (lengths self) ;;
  logL <- score hmm_model (X self) (lengths self) ;;
  sc <- dic_others hmm_model (this_word self) (hwords self) (PyInt 0) ;;
  mean_other_words <- py_truediv_int sc (Z.of_nat (length (hwords self)) - 1) ;;
  let dic := (logL - mean_other_words)%float in
  Ok (dic, hmm_model).

(** One iteration of the [for] loop: [l] and [model] are assigned only when
    the whole [try] body ran and [dic > l]; [except: pass] keeps them. *)
Definition dic_step (self : ModelSelector) (st : float * option GaussianHMM) (nc : Z)
  : float * option GaussianHMM :=
  let '(l, model) := st in
  match dic_score self nc with
  | Ok (dic, hmm_model) =>
      if (l <? dic)%float then (dic, Some hmm_model) else (l, model)
  | Raise _ => (l, model)
  end.

Definition SelectorDIC_select (self : ModelSelector) : option GaussianHMM :=
  let candidates := py_range (min_n_components self) (max_n_components self + 1) in
  snd (fold_left (dic_step self) candidates (neg_infinity, None)).

(** ** SelectorCV *)

(** sklearn's [KFold(n_splits).split(X)] without shuffling, as its
    documentation gives it: [ValueError] when there are fewer samples than
    splits; otherwise [n_splits] consecutive test blocks, the first
    [n_samples % n_splits] of size [n_samples // n_splits + 1] and the rest
    of size [n_samples // n_splits], each paired with the remaining indices
    in increasing order. *)
Definition fold_sizes (n_splits n_samples : nat) : list nat :=
  map (fun i => (n_samples / n_splits
                 + (if (i <? n_samples mod n_splits)%nat then 1 else 0))%nat)
      (seq 0 n_splits).

Fixpoint kfold_iter (sizes : list nat) (current n_samples : nat)
  : list (list nat * list nat) :=
  match sizes with
  | [] => []
  | fold_size :: rest =>
      let stop := (current + fold_size)%nat in
      let test := seq current fold_size in
      let train := (seq 0 current ++ seq stop (n_samples - stop))%list in
      (train, test) :: kfold_iter rest stop n_samples
  end.

Definition KFold_split (n_splits n_samples : nat) : result (list (list nat * list nat)) :=
  if (n_samples <? n_splits)%nat then Raise ValueError
  else Ok (kfold_iter (fold_sizes n_splits n_samples) 0 n_samples).

Definition n_split (self : ModelSelector) : nat :=
  if (length (sequences self) <? 3)%nat then 2%nat else 3%nat.

(** The [try] of one fold: [hmm_model] is rebound to the new object before
    [fit] runs, so it stays bound to that object when [fit] or [score]
    raises; [scores] grows only when both returned. *)
Definition cv_fold_try (self : ModelSelector) (n_comp : Z)
  (x_train : list frame) (len_train : list Z)
  (x_test : list frame) (len_test : list Z)
  (st : list float * option GaussianHMM) : list float * option GaussianHMM :=
  let '(scores, _) := st in
  let hmm_model := GaussianHMM_new n_comp (random_state self) (verbose self) in
  match fit hmm_model x_train len_train with
  | Raise _ => (scores, Some hmm_model)
  | Ok hmm_model =>
      match score hmm_model x_test len_test with
      | Raise _ => (scores, Some hmm_model)
      | Ok s => ((scores ++ [s])%list, Some hmm_model)
      end
  end.

(** The [for] loop over the folds; [combine_sequences] is called outside
    the [try]. *)
Fixpoint cv_folds (self : ModelSelector) (n_comp : Z)
  (folds : list (list nat * list nat))
  (st : list float * option GaussianHMM)
  : result (list float * option GaussianHMM) :=
  match folds with
  | [] => Ok st
  | (cv_train_idx, cv_test_idx) :: rest =>
      '(x_train, len_train) <- combine_sequences cv_train_idx (sequences self) ;;
      '(x_test, len_test) <- combine_sequences cv_test_idx (sequences self) ;;
      cv_folds self n_comp rest
        (cv_fold_try self n_comp x_train len_train x_test len_test st)
  end.

Definition avg_score (self : ModelSelector) (n_comp : Z)
  : result (float * option GaussianHMM) :=
  folds <- KFold_split (n_split self) (length (sequences self)) ;;
  '(scores, hmm_model) <- cv_folds self n_comp folds ([], None) ;;
  let avg := match scores with
             | [] => neg_infinity
             | _ :: _ => np_mean scores
             end in
  Ok (avg, hmm_model).

Fixpoint cv_loop (self : ModelSelector) (candidates : list Z)
  (st : float * option GaussianHMM) : result (float * option GaussianHMM) :=
  match candidates with
  | [] => Ok st
  | n_comp :: rest =>
      '(score, hmm_model) <- avg_score self n_comp ;;
      let '(lowest_score, model) := st in
      if (lowest_score <? score)%float
      then cv_loop self rest (score, hmm_model)
      else cv_loop self rest (lowest_score, model)
  end.

Definition SelectorCV_select (self : ModelSelector) : result (option GaussianHMM) :=
  let candidates := py_range (min_n_components self) (max_n_components self + 1) in
  '(_, model) <- cv_loop self candidates (neg_infinity, None) ;;
  Ok model.

(** ** The common entry point *)

Inductive strategy : Set := Constant | BIC | DIC | CV.

(** [select()] of a selector of the given class: what the caller sees. *)
Definition select (s : strategy) (self : ModelSelector) : result (option GaussianHMM) :=
  match s with
  | Constant => Ok (SelectorConstant_select self)
  | BIC => Ok (fst (SelectorBIC_select self))
  | DIC => Ok (SelectorDIC_select self)
  | CV => SelectorCV_select self
  end.

(** ** The criteria as the specification words them *)

(** The flattened data of all the utterances of the word, as
    [combine_sequences(range(len(self.sequences)), self.sequences)] gives it. *)
Definition combined_X (self : ModelSelector) : list frame :=
  concat (sequences self).

Definition combined_lengths (self : ModelSelector) : list Z :=
  map (fun sublist : sequence => Z.of_nat (length sublist)) (sequences self).

(** BIC(n) = -2 L + p ln N with p = n^2 + 2 n D - 1 free parameters, in
    binary64 arithmetic; [N] and [p] are ints that are converted on use. *)
Definition BIC_closed_form (L : float) (n D N : Z) : result float :=
  logN <- math_log N ;;
  p <- float_of_int (n * n + 2 * n * D - 1) ;;
  Ok (PrimFloat.mul (-2) L + p * logN)%float.

(** The mean of a list of scores: their sum, added up from zero in the
    order of the list, over their number; undefined, a division by zero,
    for the empty list. *)
Definition mean_of (l : list float) : result float :=
  match l with
  | [] => Raise ZeroDivisionError
  | _ :: _ =>
      k <- float_of_int (Z.of_nat (length l)) ;;
      Ok (fold_left PrimFloat.add l 0 / k)%float
  end.

(** The scores a model assigns to the data of every word but [this]. *)
Fixpoint scores_of_others (hmm_model : GaussianHMM) (this : string)
  (items : dict (list frame * list Z)) : result (list float) :=
  match items with
  | [] => Ok []
  | (word, (x, lengths)) :: rest =>
      if String.eqb word this then scores_of_others hmm_model this rest
      else
        s <- score hmm_model x lengths ;;
        ss <- scores_of_others hmm_model this rest ;;
        Ok (s :: ss)
  end.

(** The held-out score of one fold: the score of its test part under the
    model fitted on its training part, when both calls return. *)
Definition fold_score (self : ModelSelector) (n_comp : Z) (fold : list nat * list nat)
  : option float :=
  match combine_sequences (fst fold) (sequences self),
        combine_sequences (snd fold) (sequences self) with
  | Ok (x_train, len_train), Ok (x_test, len_test) =>
      match fit (GaussianHMM_new n_comp (random_state self) (verbose self))
                x_train len_train with
      | Ok hmm_model =>
          match score hmm_model x_test len_test with
          | Ok s => Some s
          | Raise _ => None
          end
      | Raise _ => None
      end
  | _, _ => None
  end.

Definition successful_scores (self : ModelSelector) (n_comp : Z)
  (folds : list (list nat * list nat)) : list float :=
  flat_map (fun fold => match fold_score self n_comp fold with
                        | Some s => [s]
                        | None => []
                        end) folds.

(** The average over the folds that succeeded; minus infinity when none did. *)
Definition cv_average (scores : list float) : float :=
  match scores with
  | [] => neg_infinity
  | _ :: _ => np_mean scores
  end.

(** Equality of two floats as numbers: [==] of Python, which does not tell
    the two zeros apart, or both not a number. *)
Definition same_number (x y : float) : Prop :=
  (x =? y)%float = true \/ (is_nan x = true /\ is_nan y = true).

End Selectors.

(** ** A small trainer to run the selectors on

    A stand-in for hmmlearn with the failure mode met in practice: [fit]
    refuses a model with more states than there are frames to train on.
    The log-likelihood it reports is the sum of the first features of the
    scored frames plus a term that depends on the state count only. *)
Module Toy.

Record toy_params : Set := {
  toy_states : Z;
  toy_features : Z
}.

Definition toy_fit (a : hmm_args) (X : list frame) (lengths : list Z) : result toy_params :=
  if Z.of_nat (length X) <? n_components a then Raise ValueError
  else Ok {| toy_states := n_components a;
             toy_features := Z.of_nat (length (hd [] X)) |}.

Definition toy_bonus (n : Z) : float :=
  match n with
  | 2 => (-1)%float
  | 3 => (-4)%float
  | 4 => (-2.5)%float
  | _ => (-8)%float
  end.

Definition toy_score (p : toy_params) (X : list frame) (lengths : list Z) : result float :=
  Ok (fold_left (fun acc fr => acc + hd 0 fr) X 0 + toy_bonus (toy_states p))%float.

(** The natural logarithm at the small arguments the examples use. *)
Definition toy_log (z : Z) : float :=
  match z with
  | 1 => 0%float
  | 2 => 0x1.62e42fefa39efp-1%float
  | 3 => 0x1.193ea7aad030bp+0%float
  | 4 => 0x1.62e42fefa39efp+0%float
  | _ => SF2Prim (binary_normalize prec emax (Z.log2 z) 0 false)
  end.

Definition toy_mean (l : list float) : float :=
  (fold_left PrimFloat.add l 0
   / SF2Prim (binary_normalize prec emax (Z.of_nat (length l)) 0 false))%float.

#[export] Instance toy : Externals := {|
  params := toy_params;
  hmm_fit := toy_fit;
  hmm_score := toy_score;
  hmm_n_features := toy_features;
  libm_log := toy_log;
  np_mean := toy_mean
|}.

(** One-feature frames and utterances built from them. *)
Definition fr (v : float) : frame := [v].

Definition selector_of (seqs : list sequence) (others : dict (list frame * list Z))
  (n_const min_n max_n : Z) : ModelSelector :=
  {| words := [("FISH"%string, seqs)];
     hwords := ("FISH"%string,
                (concat seqs, map (fun s : sequence => Z.of_nat (length s)) seqs)) :: others;
     sequences := seqs;
     X := concat seqs;
     lengths := map (fun s : sequence => Z.of_nat (length s)) seqs;
     this_word := "FISH";
     n_constant := n_const;
     min_n_components := min_n;
     max_n_components := max_n;
     random_state := 14;
     verbose := false |}.

(** A word with two utterances of one frame each: two states can be
    fitted, three cannot. *)
Definition two_short : ModelSelector :=
  selector_of [[fr 1]; [fr 2]] [] 3 2 3.

(** A word with three utterances of one frame each, searched from two to
    four states with the constant at three. *)
Definition three_short : ModelSelector :=
  selector_of [[fr 0.5]; [fr 0.25]; [fr 0.25]] [] 3 2 4.

(** A word with two short utterances and a long one, at three states: the
    third fold trains on the two short ones. *)
Definition short_short_long : ModelSelector :=
  selector_of [[fr 1]; [fr 2]; [fr 3; fr 4; fr 5]] [] 3 3 3.

(** A word seen once. *)
Definition seen_once : ModelSelector :=
  selector_of [[fr 1; fr 2; fr 3]] [] 3 2 10.

(** Two words in the flat index. *)
Definition fish_and_chips : ModelSelector :=
  selector_of [[fr 1; fr 2]; [fr 3]]
              [("CHIPS"%string, ([fr 0.5; fr 0.5; fr 2], [3]))] 3 2 3.

(** The model [fit] hands back for [n] states at one feature. *)
Definition fitted_with (n : Z) (verb : bool) : GaussianHMM :=
  {| args := args (GaussianHMM_new n 14 verb);
     fitted := Some {| toy_states := n; toy_features := 1 |} |}.

Definition score_or_nan (c : result float) : float :=
  match c with Ok f => f | Raise _ => nan end.

(** A word one of whose frames makes every log-likelihood minus infinity. *)
Definition hopeless : ModelSelector :=
  selector_of [[fr neg_infinity]; [fr 1]] [] 2 2 2.

(** The word with three short utterances, searched over two and three
    states only. *)
Definition three_short_2_3 : ModelSelector :=
  selector_of [[fr 0.5]; [fr 0.25]; [fr 0.25]] [] 3 2 3.

(** A word without utterances. *)
Definition never_seen : ModelSelector :=
  selector_of [] [] 3 2 3.

End Toy.

(** * Properties *)

(** ** Ranges and the sequence combiner *)

Lemma py_range_empty (lo hi : Z) : hi <= lo -> py_range lo hi = [].
Proof.
  intros Hle. unfold py_range.
  replace (Z.to_nat (hi - lo)) with 0%nat by lia. reflexivity.
Qed.

Lemma py_range_cons (lo hi : Z) :
  lo < hi -> py_range lo hi = lo :: py_range (lo + 1) hi.
Proof.
  intros Hlt. unfold py_range.
  replace (Z.to_nat (hi - lo)) with (S (Z.to_nat (hi - (lo + 1)))) by lia.
  cbn [seq map]. f_equal; [lia|].
  rewrite <- seq_shift, map_map.
  apply map_ext. intros i. lia.
Qed.

Lemma select_sequences_suffix (pre t : list sequence) :
  select_sequences (seq (length pre) (length t)) (pre ++ t) = Ok t.
Proof.
  revert pre. induction t as [|s t IH]; intros pre; [reflexivity|].
  cbn [length seq select_sequences].
  rewrite nth_error_app2 by lia. rewrite Nat.sub_diag. cbn [nth_error].
  specialize (IH (pre ++ [s])%list).
  rewrite length_app in IH. cbn [length] in IH.
  rewrite Nat.add_1_r, <- app_assoc in IH. cbn [app] in IH.
  rewrite IH. reflexivity.
Qed.

Lemma select_sequences_all (s : list sequence) :
  select_sequences (seq 0 (length s)) s = Ok s.
Proof. exact (select_sequences_suffix [] s). Qed.

Lemma select_sequences_in_range (idxs : list nat) (s : list sequence) :
  Forall (fun i => (i < length s)%nat) idxs ->
  exists fold, select_sequences idxs s = Ok fold.
Proof.
  induction 1 as [|i idxs Hi _ [fold IH]]; [now exists []|].
  cbn [select_sequences].
  destruct (nth_error s i) as [x|] eqn:E.
  - rewrite IH. now exists (x :: fold).
  - apply nth_error_None in E. lia.
Qed.

(** ** The folds of [KFold] *)

Lemma fold_sizes_length (k n : nat) : length (fold_sizes k n) = k.
Proof. unfold fold_sizes. now rewrite length_map, length_seq. Qed.

Lemma list_sum_bumped (a r k : nat) :
  list_sum (map (fun i => (a + (if (i <? r)%nat then 1 else 0))%nat) (seq 0 k))
  = (k * a + Nat.min r k)%nat.
Proof.
  induction k as [|k IH]; [now rewrite Nat.min_0_r|].
  rewrite seq_S, map_app, list_sum_app, IH.
  cbn [map]. unfold list_sum at 1. cbn [fold_right].
  destruct (Nat.ltb_spec (0 + k) r); lia.
Qed.

Lemma fold_sizes_sum (k n : nat) : (0 < k)%nat -> list_sum (fold_sizes k n) = n.
Proof.
  intros Hk. unfold fold_sizes. rewrite list_sum_bumped.
  pose proof (Nat.mod_upper_bound n k ltac:(lia)).
  pose proof (Nat.div_mod_eq n k). lia.
Qed.

Lemma fold_sizes_positive (k n : nat) :
  (0 < k <= n)%nat -> Forall (fun sz => (0 < sz)%nat) (fold_sizes k n).
Proof.
  intros Hk. unfold fold_sizes. apply Forall_forall. intros sz Hin.
  apply in_map_iff in Hin as (i & <- & _).
  assert (1 <= n / k)%nat by (apply Nat.div_le_lower_bound; lia). lia.
Qed.

Lemma kfold_iter_length (sizes : list nat) (c n : nat) :
  length (kfold_iter sizes c n) = length sizes.
Proof.
  revert c. induction sizes as [|sz sizes IH]; intros c; cbn; [reflexivity|].
  now rewrite IH.
Qed.

Lemma kfold_iter_tests (sizes : list nat) (c n : nat) :
  concat (map snd (kfold_iter sizes c n)) = seq c (list_sum sizes).
Proof.
  revert c. induction sizes as [|sz sizes IH]; intros c; [reflexivity|].
  cbn [kfold_iter map snd concat].
  change (list_sum (sz :: sizes)) with (sz + list_sum sizes)%nat.
  now rewrite IH, seq_app.
Qed.

Lemma kfold_iter_folds (sizes : list nat) (c n : nat) :
  (c + list_sum sizes <= n)%nat ->
  Forall (fun fold => Permutation (fst fold ++ snd fold) (seq 0 n))
         (kfold_iter sizes c n).
Proof.
  revert c. induction sizes as [|sz sizes IH]; intros c Hle; [constructor|].
  change (list_sum (sz :: sizes)) with (sz + list_sum sizes)%nat in Hle.
  cbn [kfold_iter]. constructor.
  - cbn [fst snd].
    assert (E : seq 0 n = (seq 0 c ++ seq c sz ++ seq (c + sz) (n - (c + sz)))%list).
    { rewrite <- (seq_app sz), <- (seq_app c (sz + _) 0). f_equal. lia. }
    rewrite E, <- app_assoc.
    apply Permutation_app_head, Permutation_app_comm.
  - apply IH. lia.
Qed.

Lemma kfold_iter_nonempty (sizes : list nat) (c n : nat) :
  Forall (fun sz => (0 < sz)%nat) sizes ->
  Forall (fun fold => snd fold <> []) (kfold_iter sizes c n).
Proof.
  intros H. revert c. induction H as [|sz sizes Hsz _ IH]; intros c; [constructor|].
  cbn [kfold_iter]. constructor; [|apply IH].
  cbn [snd]. destruct sz; [lia|discriminate].
Qed.

Lemma KFold_split_in_range (k n : nat) (folds : list (list nat * list nat)) :
  (0 < k)%nat -> KFold_split k n = Ok folds ->
  Forall (fun fold => Forall (fun i => (i < n)%nat) (fst fold)
                      /\ Forall (fun i => (i < n)%nat) (snd fold)) folds.
Proof.
  unfold KFold_split. intros Hk.
  destruct (Nat.ltb_spec n k); [discriminate|]. intros [= <-].
  pose proof (kfold_iter_folds (fold_sizes k n) 0 n) as HP.
  rewrite fold_sizes_sum in HP by assumption. specialize (HP (Nat.le_refl _)).
  eapply Forall_impl; [|exact HP]. cbn beta. intros [train test] Hperm.
  cbn [fst snd] in *.
  assert (Hall : Forall (fun i => (i < n)%nat) (train ++ test)).
  { apply Forall_forall. intros i Hi.
    apply (Permutation_in _ Hperm), in_seq in Hi. lia. }
  apply Forall_app in Hall. exact Hall.
Qed.

(** ** Binary64 facts: division by one, comparisons *)

Lemma bounded_cases (mx : positive) (ex : Z) :
  bounded prec emax mx ex = true ->
  (Zpos (digits2_pos mx) = 53 /\ -1074 < ex)
  \/ (Zpos (digits2_pos mx) <= 53 /\ ex = -1074).
Proof.
  unfold bounded, canonical_mantissa, fexp, SpecFloat.emin, prec, emax.
  intros H. apply andb_true_iff in H as [Hc He].
  apply Z.eqb_eq in Hc. apply Z.leb_le in He. lia.
Qed.

Lemma shr_fexp_canonical (mx : positive) (ex : Z) :
  bounded prec emax mx ex = true ->
  shr_fexp prec emax (Zpos mx) ex loc_Exact
  = ({| shr_m := Zpos mx; shr_r := false; shr_s := false |}, ex).
Proof.
  intros H. unfold bounded, canonical_mantissa in H.
  apply andb_true_iff in H as [Hc _]. apply Z.eqb_eq in Hc.
  unfold shr_fexp. cbn [Zdigits2]. rewrite Hc, Z.sub_diag. reflexivity.
Qed.

(** Rounding a mantissa and exponent that already are a binary64 number. *)
Lemma binary_round_aux_canonical (sx : bool) (mx : positive) (ex : Z) :
  bounded prec emax mx ex = true ->
  binary_round_aux prec emax sx (Zpos mx) ex loc_Exact = S754_finite sx mx ex.
Proof.
  intros H. unfold binary_round_aux.
  rewrite (shr_fexp_canonical mx ex H).
  cbn [shr_m loc_of_shr_record round_nearest_even].
  rewrite (shr_fexp_canonical mx ex H). cbn [shr_m].
  unfold bounded in H. apply andb_true_iff in H as [_ He]. now rewrite He.
Qed.

(** The same with one more bit of mantissa, which the first shift drops. *)
Lemma binary_round_aux_doubled (sx : bool) (mx : positive) (ex : Z) :
  bounded prec emax mx ex = true ->
  Zpos (digits2_pos mx) = 53 -> -1074 < ex ->
  binary_round_aux prec emax sx (Zpos mx~0) (ex - 1) loc_Exact = S754_finite sx mx ex.
Proof.
  intros H Hd Hex. unfold binary_round_aux.
  assert (E : shr_fexp prec emax (Zpos mx~0) (ex - 1) loc_Exact
              = ({| shr_m := Zpos mx; shr_r := false; shr_s := false |}, ex)).
  { unfold shr_fexp. cbn [Zdigits2 digits2_pos].
    rewrite Pos2Z.inj_succ, Hd.
    replace (fexp prec emax (Z.succ 53 + (ex - 1)) - (ex - 1)) with 1
      by (unfold fexp, SpecFloat.emin, prec, emax; lia).
    cbn. f_equal. lia. }
  rewrite E. cbn [shr_m loc_of_shr_record round_nearest_even].
  rewrite (shr_fexp_canonical mx ex H). cbn [shr_m].
  unfold bounded in H. apply andb_true_iff in H as [_ He]. now rewrite He.
Qed.

Lemma div_eucl_exact (a b : Z) : b <> 0 -> Z.div_eucl (a * b) b = (a, 0).
Proof.
  intros Hb.
  pose proof (Z.div_mul a b Hb) as Hq. pose proof (Z.mod_mul a b Hb) as Hr.
  unfold Z.div, Z.modulo in Hq, Hr.
  destruct (Z.div_eucl (a * b) b) as [q r]. now subst.
Qed.

Lemma SFdiv_one (x : spec_float) :
  valid_binary x = true -> SF64div x (Prim2SF 1) = x.
Proof.
  change (Prim2SF 1) with (S754_finite false 4503599627370496 (-52)).
  destruct x as [s|s| |sx mx ex]; cbn [SpecFloat.valid_binary]; intros Hv.
  - now destruct s.
  - now destruct s.
  - reflexivity.
  - unfold SF64div, SFdiv, SFdiv_core_binary.
    cbn [Zdigits2].
    change (Zpos (digits2_pos 4503599627370496)) with 53.
    destruct (bounded_cases mx ex Hv) as [[Hd Hex]|[Hd Hex]].
    + replace (Z.min _ _) with (ex - 1)
        by (unfold fexp, SpecFloat.emin, prec, emax; lia).
      replace (ex - -52 - (ex - 1)) with 53 by lia.
      rewrite Z.shiftl_mul_pow2 by lia.
      replace (Zpos mx * 2 ^ 53) with (Zpos mx~0 * 4503599627370496) by lia.
      rewrite div_eucl_exact by discriminate.
      change (new_location 4503599627370496 0) with loc_Exact.
      rewrite xorb_false_r. now apply binary_round_aux_doubled.
    + replace (Z.min _ _) with ex
        by (unfold fexp, SpecFloat.emin, prec, emax; lia).
      replace (ex - -52 - ex) with 52 by lia.
      rewrite Z.shiftl_mul_pow2 by lia.
      change (2 ^ 52) with 4503599627370496.
      rewrite div_eucl_exact by discriminate.
      change (new_location 4503599627370496 0) with loc_Exact.
      rewrite xorb_false_r. now apply binary_round_aux_canonical.
Qed.

(** Dividing a float by 1.0 gives the float back. *)
Lemma div_one (x : float) : (x / 1)%float = x.
Proof.
  apply Prim2SF_inj. rewrite div_spec.
  apply SFdiv_one, Prim2SF_valid.
Qed.

Lemma same_number_of_spec (x y : float) :
  SFeqb (Prim2SF x) (Prim2SF y) = true
  \/ (Prim2SF x = S754_nan /\ Prim2SF y = S754_nan) ->
  same_number x y.
Proof.
  unfold same_number. intros [H|[Hx Hy]].
  - left. now rewrite eqb_spec.
  - right. unfold is_nan. rewrite !eqb_spec, Hx, Hy. split; reflexivity.
Qed.

Lemma same_number_refl (x : float) : same_number x x.
Proof.
  unfold same_number, is_nan. destruct (x =? x)%float; [now left|now right].
Qed.

(** Adding a float to 0.0 gives the float back, up to the sign of zero;
    subtracting the result cannot be told from subtracting the float. *)
Lemma sub_zero_plus (a b : float) : same_number (a - (0 + b))%float (a - b)%float.
Proof.
  destruct (Prim2SF b) as [[|]|s| |s m e] eqn:Eb.
  2-5: replace (0 + b)%float with b;
       [apply same_number_refl
       |apply Prim2SF_inj; rewrite add_spec, Eb; reflexivity].
  apply same_number_of_spec.
  rewrite !sub_spec, add_spec, Eb.
  change (Prim2SF 0) with (S754_zero false).
  destruct (Prim2SF a) as [[|]|[|]| |[|] m e] eqn:Ea; cbn; auto.
  all: left; unfold SFeqb; cbn [SFcompare];
       now rewrite Z.compare_refl, Pos.compare_cont_refl.
Qed.

(** The two sides can differ in the sign of a zero, which is why they are
    compared as numbers. *)
Remark sub_zero_plus_sign :
  (neg_zero - (0 + neg_zero) / 1)%float <> (neg_zero - neg_zero)%float.
Proof.
  intros H. apply (f_equal get_sign) in H. vm_compute in H. discriminate H.
Qed.

(** [<] on binary64 numbers is transitive and irreflexive. *)
Lemma SFltb_trans (x y z : spec_float) :
  SFltb x y = true -> SFltb y z = true -> SFltb x z = true.
Proof.
  unfold SFltb.
  destruct x as [[|]|[|]| |[|] mx ex], y as [[|]|[|]| |[|] my ey],
           z as [[|]|[|]| |[|] mz ez];
    cbn [SFcompare]; try discriminate; try reflexivity;
    change (Pos.compare_cont Eq) with Pos.compare;
    destruct (Z.compare_spec ex ey), (Z.compare_spec ey ez), (Z.compare_spec ex ez);
    try discriminate; try reflexivity; try lia; subst;
    destruct (Pos.compare_spec mx my), (Pos.compare_spec my mz), (Pos.compare_spec mx mz);
    cbn [CompOpp]; try discriminate; try reflexivity; try lia.
Qed.

Lemma ltb_trans (x y z : float) :
  (x <? y)%float = true -> (y <? z)%float = true -> (x <? z)%float = true.
Proof. rewrite !ltb_spec. apply SFltb_trans. Qed.

Lemma ltb_irrefl (x : float) : (x <? x)%float = false.
Proof.
  rewrite ltb_spec. unfold SFltb.
  destruct (Prim2SF x) as [[|]|[|]| |[|] mx ex]; cbn [SFcompare]; try reflexivity;
    now rewrite Z.compare_refl, Pos.compare_cont_refl.
Qed.

Lemma ltb_not_below (x y z : float) :
  (y <? z)%float = true -> (x <? z)%float = false -> (x <? y)%float = false.
Proof.
  intros Hyz Hxz. destruct (x <? y)%float eqn:Hxy; [|reflexivity].
  now rewrite (ltb_trans x y z Hxy Hyz) in Hxz.
Qed.

Lemma ltb_asym (x y : float) :
  (x <? y)%float = true -> (y <? x)%float = false.
Proof.
  intros Hxy. destruct (y <? x)%float eqn:Hyx; [|reflexivity].
  pose proof (ltb_trans x y x Hxy Hyx) as H. now rewrite ltb_irrefl in H.
Qed.

Section SelectorFacts.

Context {ext : Externals}.

Lemma combine_all (self : ModelSelector) :
  combine_sequences (all_indices self) (sequences self)
  = Ok (combined_X self, combined_lengths self).
Proof.
  unfold combine_sequences, all_indices.
  rewrite select_sequences_all. reflexivity.
Qed.

Lemma base_model_fitted (self : ModelSelector) (n : Z) (m : GaussianHMM) :
  base_model self n = Some m ->
  exists p, hmm_fit (args (GaussianHMM_new n (random_state self) false))
                    (X self) (lengths self) = Ok p
            /\ m = {| args := args (GaussianHMM_new n (random_state self) false);
                      fitted := Some p |}.
Proof.
  unfold base_model, fit, bind.
  destruct (hmm_fit _ _ _) as [p|e]; [|discriminate].
  intros [= <-]. now exists p.
Qed.

(** ** SelectorBIC: the score *)

(** C3: for a state count [n] whose fit succeeds, with [L] the score of the
    fitted model on the combined sequences of the word, [D] its number of
    features and [N] the number of utterance sequences of the word (not of
    frames), the candidate score that [get_model_score] computes is exactly
    -2 L + (n^2 + 2 n D - 1) ln N. *)
Theorem get_model_score_closed_form
  (self : ModelSelector) (n : Z) (model : GaussianHMM) (L : float) :
  base_model self n = Some model ->
  score model (combined_X self) (combined_lengths self) = Ok L ->
  exists D, n_features model = Ok D
    /\ get_model_score self n
       = BIC_closed_form L n D (Z.of_nat (length (sequences self)))
    /\ (forall p : float,
          sequences self <> [] ->
          float_of_int (n * n + 2 * n * D - 1) = Ok p ->
          get_model_score self n
          = Ok (PrimFloat.mul (-2) L
                + p * libm_log (Z.of_nat (length (sequences self))))%float).
Proof.
  intros Hfit Hscore.
  destruct (base_model_fitted _ _ _ Hfit) as (p & _ & ->).
  exists (hmm_n_features p). split; [reflexivity|].
  assert (E : get_model_score self n
              = BIC_closed_form L n (hmm_n_features p)
                                (Z.of_nat (length (sequences self)))).
  { unfold get_model_score, BIC_closed_form.
    rewrite combine_all. cbn [bind].
    rewrite Hfit, Hscore. cbn [bind].
    change (float_of_int (-2)) with (Ok (-2)%float). cbn [bind n_features fitted].
    destruct (math_log _) as [logN|e]; cbn [bind]; [|reflexivity].
    replace (n ^ 2) with (n * n) by (rewrite Z.pow_2_r; reflexivity).
    reflexivity. }
  split; [exact E|].
  intros pf Hne Hpf. rewrite E. unfold BIC_closed_form, math_log.
  destruct (Z.leb_spec (Z.of_nat (length (sequences self))) 0) as [H0|_].
  - destruct (sequences self); [contradiction|cbn [length] in H0; lia].
  - cbn [bind]. rewrite Hpf. reflexivity.
Qed.

(** ** SelectorBIC: the empty range *)

(** C9: when [min_n_components > max_n_components] the candidate range is
    empty and [SelectorBIC.select] returns what [SelectorConstant.select]
    returns on the same selector, the fit with [n_constant] states; the
    selector is left as it was. *)
Theorem bic_empty_range_is_constant (self : ModelSelector) :
  max_n_components self < min_n_components self ->
  py_range (min_n_components self) (max_n_components self + 1) = []
  /\ SelectorBIC_select self = (SelectorConstant_select self, self)
  /\ SelectorConstant_select self = base_model self (n_constant self).
Proof.
  intros Hlt.
  assert (Hr : py_range (min_n_components self) (max_n_components self + 1) = [])
    by (apply py_range_empty; lia).
  split; [exact Hr|]. split; [|reflexivity].
  unfold SelectorBIC_select, bic_try. rewrite Hr. reflexivity.
Qed.

(** ** SelectorCV: the folds *)

(** X15: [SelectorCV] asks for k folds with k = 3 when the word has at
    least three utterance sequences and k = 2 otherwise, so k is never below
    2 nor above 3; the splitter either yields exactly k folds, their
    non-empty test parts partitioning the utterance indices, or raises, and
    it raises only for a word with fewer than two sequences. *)
Theorem cv_fold_count (self : ModelSelector) :
  let N := length (sequences self) in
  let k := n_split self in
  k = (if (3 <=? N)%nat then 3 else 2)%nat
  /\ (2 <= k <= 3)%nat
  /\ match KFold_split k N with
     | Ok folds =>
         length folds = k
         /\ concat (map snd folds) = seq 0 N
         /\ Forall (fun fold => snd fold <> []
                                /\ Permutation (fst fold ++ snd fold) (seq 0 N)) folds
     | Raise _ => (N < 2)%nat
     end.
Proof.
  cbv zeta. unfold n_split.
  set (N := length (sequences self)).
  assert (Hk : (if (N <? 3)%nat then 2 else 3)%nat
               = (if (3 <=? N)%nat then 3 else 2)%nat).
  { destruct (Nat.ltb_spec N 3), (Nat.leb_spec 3 N); lia || reflexivity. }
  split; [exact Hk|]. rewrite Hk.
  split; [destruct (3 <=? N)%nat; lia|].
  unfold KFold_split.
  destruct (Nat.leb_spec 3 N) as [H3|H3];
    match goal with
    | |- context [(N <? ?k)%nat] => destruct (Nat.ltb_spec N k) as [Hlt|Hge]
    end; try lia.
  all: repeat split.
  all: try (rewrite kfold_iter_length; apply fold_sizes_length).
  all: try (rewrite kfold_iter_tests, fold_sizes_sum by lia; reflexivity).
  all: apply Forall_forall; intros fold Hin; split.
  all: try (eapply (proj1 (Forall_forall _ _)) in Hin;
            [exact Hin|]; cbn beta;
            apply kfold_iter_nonempty, fold_sizes_positive; lia).
  all: eapply (proj1 (Forall_forall _ _)) in Hin;
       [exact Hin|]; apply kfold_iter_folds; rewrite fold_sizes_sum; lia.
Qed.

(** ** SelectorCV: failing folds *)

Lemma combine_sequences_in_range (idxs : list nat) (seqs : list sequence) :
  Forall (fun i => (i < length seqs)%nat) idxs ->
  exists x l, combine_sequences idxs seqs = Ok (x, l).
Proof.
  intros H. destruct (select_sequences_in_range _ _ H) as [fold E].
  unfold combine_sequences. rewrite E. cbn [bind]. eauto.
Qed.

Lemma cv_folds_scores (self : ModelSelector) (n_comp : Z)
  (folds : list (list nat * list nat)) :
  Forall (fun fold =>
            Forall (fun i => (i < length (sequences self))%nat) (fst fold)
            /\ Forall (fun i => (i < length (sequences self))%nat) (snd fold)) folds ->
  forall scores model, exists model',
    cv_folds self n_comp folds (scores, model)
    = Ok ((scores ++ successful_scores self n_comp folds)%list, model').
Proof.
  induction 1 as [|[train test] folds [Htrain Htest] _ IH]; intros scores model.
  - exists model. cbn. now rewrite app_nil_r.
  - cbn [fst snd] in Htrain, Htest.
    destruct (combine_sequences_in_range _ _ Htrain) as (x_train & len_train & Etrain).
    destruct (combine_sequences_in_range _ _ Htest) as (x_test & len_test & Etest).
    cbn [cv_folds successful_scores flat_map].
    unfold fold_score. cbn [fst snd].
    rewrite Etrain, Etest. cbn [bind]. unfold cv_fold_try.
    destruct (fit _ x_train len_train) as [hmm_model|e].
    + destruct (score hmm_model x_test len_test) as [s|e].
      * destruct (IH (scores ++ [s])%list (Some hmm_model)) as [model' E].
        exists model'. rewrite E, <- app_assoc. reflexivity.
      * destruct (IH scores (Some hmm_model)) as [model' E].
        exists model'. rewrite E. reflexivity.
    + destruct (IH scores (Some (GaussianHMM_new n_comp (random_state self) (verbose self))))
        as [model' E].
      exists model'. rewrite E. reflexivity.
Qed.

Lemma n_split_positive (self : ModelSelector) : (0 < n_split self)%nat.
Proof. unfold n_split. destruct (_ <? 3)%nat; lia. Qed.

Lemma avg_score_average (self : ModelSelector) (n_comp : Z)
  (folds : list (list nat * list nat)) :
  KFold_split (n_split self) (length (sequences self)) = Ok folds ->
  exists model,
    avg_score self n_comp
    = Ok (cv_average (successful_scores self n_comp folds), model).
Proof.
  intros Hsplit. unfold avg_score. rewrite Hsplit. cbn [bind].
  pose proof (KFold_split_in_range _ _ _ (n_split_positive self) Hsplit) as Hrange.
  destruct (cv_folds_scores self n_comp folds Hrange [] None) as [model E].
  rewrite E. cbn [bind app]. exists model. reflexivity.
Qed.

Lemma successful_scores_all_fail (self : ModelSelector) (n_comp : Z)
  (folds : list (list nat * list nat)) :
  Forall (fun fold => fold_score self n_comp fold = None) folds ->
  successful_scores self n_comp folds = [].
Proof.
  induction 1 as [|fold folds Hfold _ IH]; [reflexivity|].
  cbn [successful_scores flat_map]. rewrite Hfold. exact IH.
Qed.

(** Nothing is below minus infinity. *)
Lemma nothing_below_neg_infinity (x : float) : (x <? neg_infinity)%float = false.
Proof.
  rewrite ltb_spec. change (Prim2SF neg_infinity) with (S754_infinity true).
  destruct (Prim2SF x) as [s|[|]| |[|] m e]; reflexivity.
Qed.

Lemma cv_loop_skips_neg_infinity (self : ModelSelector) (n_comp : Z) (rest : list Z)
  (st : float * option GaussianHMM) (hmm_model : option GaussianHMM) :
  avg_score self n_comp = Ok (neg_infinity, hmm_model) ->
  cv_loop self (n_comp :: rest) st = cv_loop self rest st.
Proof.
  intros E. cbn [cv_loop]. rewrite E. cbn [bind].
  destruct st as [lowest_score model].
  now rewrite nothing_below_neg_infinity.
Qed.

Lemma cv_loop_all_neg_infinity (self : ModelSelector) (candidates : list Z)
  (st : float * option GaussianHMM) :
  Forall (fun n_comp => exists hmm_model,
            avg_score self n_comp = Ok (neg_infinity, hmm_model)) candidates ->
  cv_loop self candidates st = Ok st.
Proof.
  induction 1 as [|n_comp rest [hmm_model E] _ IH]; [reflexivity|].
  now rewrite (cv_loop_skips_neg_infinity _ _ _ _ _ E).
Qed.

(** C7: in [SelectorCV], once the word is split into folds, the average of
    a candidate is taken over the scores of the folds whose fit and scoring
    both succeeded, a failing fold contributing nothing; when every fold
    fails the average is minus infinity; a candidate whose average is minus
    infinity never replaces the best so far; and when every candidate has
    average minus infinity [select] returns [None]. *)
Theorem cv_failed_folds_are_excluded (self : ModelSelector)
  (folds : list (list nat * list nat)) :
  KFold_split (n_split self) (length (sequences self)) = Ok folds ->
  (forall n_comp, exists model,
      avg_score self n_comp
      = Ok (cv_average (successful_scores self n_comp folds), model))
  /\ (forall n_comp,
        Forall (fun fold => fold_score self n_comp fold = None) folds ->
        exists model, avg_score self n_comp = Ok (neg_infinity, model))
  /\ (forall n_comp rest st hmm_model,
        avg_score self n_comp = Ok (neg_infinity, hmm_model) ->
        cv_loop self (n_comp :: rest) st = cv_loop self rest st)
  /\ (Forall (fun n_comp => exists hmm_model,
                avg_score self n_comp = Ok (neg_infinity, hmm_model))
             (py_range (min_n_components self) (max_n_components self + 1)) ->
      SelectorCV_select self = Ok None).
Proof.
  intros Hsplit. repeat split.
  - intros n_comp. exact (avg_score_average self n_comp folds Hsplit).
  - intros n_comp Hfail.
    destruct (avg_score_average self n_comp folds Hsplit) as [model E].
    exists model. rewrite E, successful_scores_all_fail by assumption. reflexivity.
  - intros n_comp rest st hmm_model. apply cv_loop_skips_neg_infinity.
  - intros Hall. unfold SelectorCV_select.
    rewrite cv_loop_all_neg_infinity by assumption. reflexivity.
Qed.

(** ** SelectorDIC: a flat index with the target word only *)

Lemma dic_fold_all_raise (self : ModelSelector) (candidates : list Z)
  (st : float * option GaussianHMM) :
  (forall nc, exists e, dic_score self nc = Raise e) ->
  fold_left (dic_step self) candidates st = st.
Proof.
  intros Hraise. revert st.
  induction candidates as [|nc rest IH]; intros st; [reflexivity|].
  cbn [fold_left]. rewrite <- (IH st) at 2. f_equal.
  unfold dic_step. destruct st as [l model].
  destruct (Hraise nc) as [e ->]. reflexivity.
Qed.

Lemma dic_score_single_word (self : ModelSelector) (d : list frame * list Z) (nc : Z) :
  hwords self = [(this_word self, d)] ->
  dic_score self nc
  = (hmm_model <- fit (GaussianHMM_new nc (random_state self) (verbose self))
                      (X self) (lengths self) ;;
     _ <- score hmm_model (X self) (lengths self) ;;
     Raise ZeroDivisionError).
Proof.
  intros Hw. unfold dic_score. rewrite Hw.
  destruct (fit _ _ _) as [hmm_model|e]; cbn [bind]; [|reflexivity].
  destruct (score hmm_model _ _) as [logL|e]; cbn [bind]; [|reflexivity].
  destruct d as [x l]. cbn [dic_others]. rewrite String.eqb_refl.
  reflexivity.
Qed.

(** C8: when the flat index holds the target word only, the mean over the
    other words is a division of the int 0 by the int 0; for every state
    count the [try] body raises (a [ZeroDivisionError] whenever the fit and
    the scoring of the own data went through), every candidate is skipped
    and [SelectorDIC.select] returns [None]; nothing is raised to the
    caller. *)
Theorem dic_single_word_returns_none (self : ModelSelector) (d : list frame * list Z) :
  hwords self = [(this_word self, d)] ->
  (forall nc, exists e, dic_score self nc = Raise e)
  /\ (forall nc hmm_model logL,
        fit (GaussianHMM_new nc (random_state self) (verbose self))
            (X self) (lengths self) = Ok hmm_model ->
        score hmm_model (X self) (lengths self) = Ok logL ->
        dic_score self nc = Raise ZeroDivisionError)
  /\ (forall nc st, dic_step self st nc = st)
  /\ SelectorDIC_select self = None
  /\ select DIC self = Ok None.
Proof.
  intros Hw.
  assert (Hraise : forall nc, exists e, dic_score self nc = Raise e).
  { intros nc. rewrite (dic_score_single_word self d nc Hw).
    destruct (fit _ _ _) as [hmm_model|e]; cbn [bind]; [|eauto].
    destruct (score hmm_model _ _) as [logL|e]; cbn [bind]; eauto. }
  assert (Hnone : SelectorDIC_select self = None).
  { unfold SelectorDIC_select. now rewrite dic_fold_all_raise. }
  split; [exact Hraise|]. split; [|split; [|split]].
  - intros nc hmm_model logL Hfit Hscore.
    rewrite (dic_score_single_word self d nc Hw), Hfit. cbn [bind].
    rewrite Hscore. reflexivity.
  - intros nc [l model]. unfold dic_step. destruct (Hraise nc) as [e ->]. reflexivity.
  - exact Hnone.
  - cbn [select]. now rewrite Hnone.
Qed.

(** ** What the caller of [select] sees *)

(** The three strategies that wrap their whole search in handlers return. *)
Lemma select_returns_outside_cv (s : strategy) (self : ModelSelector) :
  s <> CV -> exists model, select s self = Ok model.
Proof. destruct s; cbn [select]; intros H; eauto. contradiction. Qed.

(** C2, at the input where it fails: for a word with fewer than two
    utterance sequences and a non-empty candidate range, the split of the
    first candidate raises [ValueError] outside every [try] of [SelectorCV]
    and [select] passes it on to the caller. *)
Theorem cv_select_raises_below_two_sequences (self : ModelSelector) :
  (length (sequences self) < 2)%nat ->
  min_n_components self <= max_n_components self ->
  select CV self = Raise ValueError.
Proof.
  intros Hlen Hrange. cbn [select]. unfold SelectorCV_select.
  rewrite py_range_cons by lia. cbn [cv_loop].
  unfold avg_score, KFold_split, n_split.
  destruct (Nat.ltb_spec (length (sequences self)) 3); [|lia].
  destruct (Nat.ltb_spec (length (sequences self)) 2); [|lia].
  reflexivity.
Qed.

(** ** SelectorDIC: the criterion *)

Lemma dic_others_float (hmm_model : GaussianHMM) (this : string)
  (items : dict (list frame * list Z)) (ss : list float) (a : float) :
  scores_of_others hmm_model this items = Ok ss ->
  dic_others hmm_model this items (PyFloat a)
  = Ok (PyFloat (fold_left PrimFloat.add ss a)).
Proof.
  revert ss a. induction items as [|[word [x l]] rest IH]; intros ss a.
  - intros [= <-]. reflexivity.
  - cbn [scores_of_others dic_others].
    destruct (String.eqb word this); cbn [negb]; [apply IH|].
    destruct (score hmm_model x l) as [s|e]; cbn [bind]; [|discriminate].
    destruct (scores_of_others hmm_model this rest) as [ss'|e]; cbn [bind];
      [|discriminate].
    intros [= <-]. cbn [py_add_float bind fold_left]. now apply IH.
Qed.

Lemma dic_others_from_zero (hmm_model : GaussianHMM) (this : string)
  (items : dict (list frame * list Z)) (ss : list float) :
  scores_of_others hmm_model this items = Ok ss ->
  dic_others hmm_model this items (PyInt 0)
  = Ok (match ss with
        | [] => PyInt 0
        | _ :: _ => PyFloat (fold_left PrimFloat.add ss 0%float)
        end).
Proof.
  revert ss. induction items as [|[word [x l]] rest IH]; intros ss.
  - intros [= <-]. reflexivity.
  - cbn [scores_of_others dic_others].
    destruct (String.eqb word this); cbn [negb]; [apply IH|].
    destruct (score hmm_model x l) as [s|e]; cbn [bind]; [|discriminate].
    destruct (scores_of_others hmm_model this rest) as [ss'|e] eqn:E; cbn [bind];
      [|discriminate].
    intros [= <-]. cbn [py_add_float].
    change (float_of_int 0) with (Ok 0%float). cbn [bind fold_left].
    now apply dic_others_float.
Qed.

Lemma scores_of_others_absent (hmm_model : GaussianHMM) (this : string)
  (items : dict (list frame * list Z)) (ss : list float) :
  ~ In this (map fst items) ->
  scores_of_others hmm_model this items = Ok ss ->
  length ss = length items.
Proof.
  revert ss. induction items as [|[word [x l]] rest IH]; intros ss Hnot.
  - intros [= <-]. reflexivity.
  - cbn [scores_of_others]. cbn [map fst In] in Hnot.
    destruct (String.eqb_spec word this) as [->|Hne]; [tauto|].
    destruct (score hmm_model x l) as [s|e]; cbn [bind]; [|discriminate].
    destruct (scores_of_others hmm_model this rest) as [ss'|e] eqn:E; cbn [bind];
      [|discriminate].
    intros [= <-]. cbn [length]. f_equal. apply IH; tauto.
Qed.

Lemma scores_of_others_length (hmm_model : GaussianHMM) (this : string)
  (items : dict (list frame * list Z)) (ss : list float) :
  well_formed_dict items ->
  is_ok (dict_get items this) = true ->
  scores_of_others hmm_model this items = Ok ss ->
  S (length ss) = length items.
Proof.
  unfold well_formed_dict.
  revert ss. induction items as [|[word [x l]] rest IH]; intros ss Hnd Hin.
  - discriminate.
  - cbn [map fst] in Hnd. inversion Hnd as [|? ? Hnot Hnd']; subst.
    cbn [scores_of_others dict_get] in *.
    destruct (String.eqb_spec word this) as [->|Hne].
    + intros E. cbn [length]. f_equal. now apply scores_of_others_absent in E.
    + destruct (score hmm_model x l) as [s|e]; cbn [bind]; [|discriminate].
      destruct (scores_of_others hmm_model this rest) as [ss'|e] eqn:E; cbn [bind];
        [|discriminate].
      intros [= <-]. cbn [length]. f_equal. now apply IH.
Qed.

(** C4: for a state count whose fit succeeds (and whose model scores the
    data), DIC is the log-likelihood of the word's own data under the model
    minus the mean of the scores the same model gives to the flattened data
    of every other word of the flat index; with exactly two words in the
    index it is, as a number, score of the own word minus score of the
    other word. *)
Theorem dic_is_own_score_minus_mean_of_others
  (self : ModelSelector) (nc : Z) (hmm_model : GaussianHMM)
  (logL : float) (others : list float) :
  well_formed_dict (hwords self) ->
  is_ok (dict_get (hwords self) (this_word self)) = true ->
  fit (GaussianHMM_new nc (random_state self) (verbose self))
      (X self) (lengths self) = Ok hmm_model ->
  score hmm_model (X self) (lengths self) = Ok logL ->
  scores_of_others hmm_model (this_word self) (hwords self) = Ok others ->
  S (length others) = length (hwords self)
  /\ dic_score self nc
     = (mean_other_words <- mean_of others ;;
        Ok ((logL - mean_other_words)%float, hmm_model))
  /\ (length (hwords self) = 2%nat ->
      exists scoreB dic,
        others = [scoreB]
        /\ dic_score self nc = Ok (dic, hmm_model)
        /\ same_number dic (logL - scoreB)%float).
Proof.
  intros Hwf Hin Hfit Hscore Hothers.
  pose proof (scores_of_others_length _ _ _ _ Hwf Hin Hothers) as Hlen.
  assert (Hdic : dic_score self nc
                 = (mean_other_words <- mean_of others ;;
                    Ok ((logL - mean_other_words)%float, hmm_model))).
  { unfold dic_score. rewrite Hfit. cbn [bind]. rewrite Hscore. cbn [bind].
    rewrite (dic_others_from_zero _ _ _ _ Hothers). cbn [bind].
    replace (Z.of_nat (length (hwords self)) - 1) with (Z.of_nat (length others))
      by lia.
    unfold py_truediv_int, mean_of.
    destruct others as [|s others]; [reflexivity|].
    destruct (Z.eqb_spec (Z.of_nat (length (s :: others))) 0) as [E|_];
      [cbn [length] in E; lia|].
    destruct (float_of_int _) as [kf|e]; reflexivity. }
  split; [exact Hlen|]. split; [exact Hdic|].
  intros H2. rewrite H2 in Hlen.
  destruct others as [|scoreB [|? ?]]; try discriminate.
  exists scoreB, (logL - (0 + scoreB) / 1)%float.
  split; [reflexivity|]. split.
  - rewrite Hdic. reflexivity.
  - rewrite div_one. apply sub_zero_plus.
Qed.

(** ** SelectorBIC: the search *)

Lemma set_Xlengths_same (self : ModelSelector) :
  set_Xlengths self (X self) (lengths self) = self.
Proof. destruct self. reflexivity. Qed.

Lemma bic_loop_app (before after : list Z) (st : bic_locals) :
  bic_loop (before ++ after) st
  = match bic_loop before st with
    | (_, Ok st') => bic_loop after st'
    | (self', Raise e) => (self', Raise e)
    end.
Proof.
  revert st. induction before as [|n before IH]; intros st; [reflexivity|].
  cbn [app bic_loop].
  destruct (get_model_score (bic_self st) n) as [model_score|e]; [|reflexivity].
  destruct (model_score <? best_score_so_far st)%float; [|apply IH].
  destruct (combine_sequences _ _) as [[x l]|e]; [apply IH|reflexivity].
Qed.

(** The search ends at the first candidate whose score raises: what was
    found before is dropped and the fit with [n_constant] states is
    returned. *)
Lemma bic_search_stops_at_first_failure
  (self self' : ModelSelector) (before after : list Z) (n : Z)
  (st' : bic_locals) (e : exn) :
  py_range (min_n_components self) (max_n_components self + 1)
  = (before ++ n :: after)%list ->
  bic_loop before {| bic_self := self; best_score_so_far := infinity;
                     bic_model := None |} = (self', Ok st') ->
  get_model_score (bic_self st') n = Raise e ->
  SelectorBIC_select self
  = (base_model (bic_self st') (n_constant (bic_self st')), bic_self st').
Proof.
  intros Hrange Hbefore Hraise.
  unfold SelectorBIC_select, bic_try.
  rewrite Hrange, bic_loop_app, Hbefore. cbn [bic_loop].
  rewrite Hraise. reflexivity.
Qed.

Lemma get_model_score_needs_model (self : ModelSelector) (n : Z) (s : float) :
  get_model_score self n = Ok s -> exists model, base_model self n = Some model.
Proof.
  unfold get_model_score. rewrite combine_all. cbn [bind].
  destruct (base_model self n) as [model|]; [eauto|discriminate].
Qed.

(** The loop on a selector whose flat entry is the combination of its
    sequences, when every candidate can be scored: the selector is not
    changed, and either nothing was below the starting score, or the loop
    ends on a candidate no other candidate is below. *)
Lemma bic_loop_minimum (self : ModelSelector) (candidates : list Z) :
  X self = combined_X self -> lengths self = combined_lengths self ->
  Forall (fun n => is_ok (get_model_score self n) = true) candidates ->
  forall best model, exists best' model',
    bic_loop candidates {| bic_self := self; best_score_so_far := best;
                           bic_model := model |}
    = (self, Ok {| bic_self := self; best_score_so_far := best';
                   bic_model := model' |})
    /\ ((best' = best /\ model' = model
         /\ forall n s, In n candidates -> get_model_score self n = Ok s ->
                        (s <? best)%float = false)
        \/ (exists k, In k candidates
                      /\ get_model_score self k = Ok best'
                      /\ model' = Some (base_model self k)
                      /\ (best' <? best)%float = true
                      /\ forall n s, In n candidates ->
                                     get_model_score self n = Ok s ->
                                     (s <? best')%float = false)).
Proof.
  intros HX Hl. induction 1 as [|n rest Hn _ IH]; intros best model.
  - exists best, model. split; [reflexivity|]. left. repeat split. intros n s [].
  - cbn [bic_loop bic_self best_score_so_far].
    destruct (get_model_score self n) as [s|e] eqn:Es; [|discriminate].
    destruct (s <? best)%float eqn:Hlt.
    + rewrite combine_all, <- HX, <- Hl, set_Xlengths_same.
      destruct (IH s (Some (base_model self n)))
        as (best' & model' & Eloop & [(-> & -> & Hmin)|(k & Hk & Ek & -> & Hlt' & Hmin)]).
      * exists s, (Some (base_model self n)). split; [exact Eloop|]. right.
        exists n. repeat split; auto using in_eq.
        intros m sm [<-|Hm] Em; [|now apply (Hmin m)].
        rewrite Es in Em. injection Em as <-. apply ltb_irrefl.
      * exists best', (Some (base_model self k)). split; [exact Eloop|]. right.
        exists k. repeat split; auto using in_cons.
        -- now apply (ltb_trans _ s).
        -- intros m sm [<-|Hm] Em; [|now apply (Hmin m)].
           rewrite Es in Em. injection Em as <-. now apply ltb_asym.
    + destruct (IH best model)
        as (best' & model' & Eloop & [(-> & -> & Hmin)|(k & Hk & Ek & -> & Hlt' & Hmin)]).
      * exists best, model. split; [exact Eloop|]. left. repeat split.
        intros m sm [<-|Hm] Em; [|now apply (Hmin m)].
        rewrite Es in Em. now injection Em as <-.
      * exists best', (Some (base_model self k)). split; [exact Eloop|]. right.
        exists k. repeat split; auto using in_cons.
        intros m sm [<-|Hm] Em; [|now apply (Hmin m)].
        rewrite Es in Em. injection Em as <-.
        now apply (ltb_not_below _ _ best).
Qed.

(** Where the search does find the minimum: on a selector whose flat entry
    is the combination of its sequences, when every candidate of the range
    can be scored and one score is below infinity, [select] returns the
    model fitted for a candidate that no candidate has a lower score than. *)
Lemma bic_all_scored_returns_minimiser (self : ModelSelector) :
  X self = combined_X self -> lengths self = combined_lengths self ->
  Forall (fun n => is_ok (get_model_score self n) = true)
         (py_range (min_n_components self) (max_n_components self + 1)) ->
  (exists n s, In n (py_range (min_n_components self) (max_n_components self + 1))
               /\ get_model_score self n = Ok s
               /\ (s <? infinity)%float = true) ->
  exists k sk model,
    In k (py_range (min_n_components self) (max_n_components self + 1))
    /\ get_model_score self k = Ok sk
    /\ base_model self k = Some model
    /\ SelectorBIC_select self = (Some model, self)
    /\ forall n s,
         In n (py_range (min_n_components self) (max_n_components self + 1)) ->
         get_model_score self n = Ok s -> (s <? sk)%float = false.
Proof.
  intros HX Hl Hall (n0 & s0 & Hin0 & Es0 & Hlt0).
  destruct (bic_loop_minimum self _ HX Hl Hall infinity None)
    as (best' & model' & Eloop & [(_ & _ & Hmin)|(k & Hk & Ek & -> & _ & Hmin)]).
  - rewrite (Hmin n0 s0 Hin0 Es0) in Hlt0. discriminate.
  - destruct (get_model_score_needs_model _ _ _ Ek) as [model Em].
    exists k, best', model. repeat split; auto.
    unfold SelectorBIC_select, bic_try. rewrite Eloop. cbn [bic_model].
    now rewrite Em.
Qed.

(** [__init__] leaves a selector whose word is a key of the flat index. *)
Lemma ModelSelector_init_word
  (all_word_sequences : dict (list sequence))
  (all_word_Xlengths : dict (list frame * list Z))
  (word : string) (n_const min_n max_n seed : Z) (verb : bool)
  (self : ModelSelector) :
  ModelSelector_init all_word_sequences all_word_Xlengths word
                     n_const min_n max_n seed verb = Ok self ->
  is_ok (dict_get (hwords self) (this_word self)) = true.
Proof.
  unfold ModelSelector_init.
  destruct (dict_get all_word_sequences word) as [seqs|e]; cbn [bind]; [|discriminate].
  destruct (dict_get all_word_Xlengths word) as [[x l]|e] eqn:E; cbn [bind];
    [|discriminate].
  intros [= <-]. cbn. now rewrite E.
Qed.

(** ** SelectorCV: the object handed back *)

(** After the fold loop [hmm_model] is the object made in the last fold:
    fitted on the training part of that fold when that fit returned, and
    the bare new object when it raised. *)
Lemma cv_folds_last_object (self : ModelSelector) (n_comp : Z)
  (folds : list (list nat * list nat)) (train test : list nat)
  (x_train x_test : list frame) (len_train len_test : list Z) :
  Forall (fun fold =>
            Forall (fun i => (i < length (sequences self))%nat) (fst fold)
            /\ Forall (fun i => (i < length (sequences self))%nat) (snd fold)) folds ->
  combine_sequences train (sequences self) = Ok (x_train, len_train) ->
  combine_sequences test (sequences self) = Ok (x_test, len_test) ->
  forall st, exists scores,
    cv_folds self n_comp (folds ++ [(train, test)]) st
    = Ok (scores,
          Some (match fit (GaussianHMM_new n_comp (random_state self) (verbose self))
                          x_train len_train with
                | Ok hmm_model => hmm_model
                | Raise _ => GaussianHMM_new n_comp (random_state self) (verbose self)
                end)).
Proof.
  intros Hrange Etrain Etest.
  induction Hrange as [|[tr te] folds [Htr Hte] _ IH]; intros [scores model].
  - cbn [app cv_folds]. rewrite Etrain, Etest. cbn [bind]. unfold cv_fold_try.
    destruct (fit _ x_train len_train) as [hmm_model|e]; [|eauto].
    destruct (score hmm_model x_test len_test) as [s|e]; eauto.
  - cbn [fst snd] in Htr, Hte.
    destruct (combine_sequences_in_range _ _ Htr) as (x1 & l1 & E1).
    destruct (combine_sequences_in_range _ _ Hte) as (x2 & l2 & E2).
    cbn [app cv_folds]. rewrite E1, E2. cbn [bind]. apply IH.
Qed.

End SelectorFacts.

(** ** Runs on the small trainer *)

Section Runs.

Import Toy.

(** C9 at a selector whose range is empty. *)
Lemma bic_empty_range_is_constant_witness :
  py_range 5 (4 + 1) = []
  /\ SelectorBIC_select (selector_of [[fr 1]; [fr 2]] [] 2 5 4)
     = (SelectorConstant_select (selector_of [[fr 1]; [fr 2]] [] 2 5 4),
        selector_of [[fr 1]; [fr 2]] [] 2 5 4)
  /\ SelectorConstant_select (selector_of [[fr 1]; [fr 2]] [] 2 5 4)
     = base_model (selector_of [[fr 1]; [fr 2]] [] 2 5 4) 2.
Proof.
  apply (bic_empty_range_is_constant (selector_of [[fr 1]; [fr 2]] [] 2 5 4)).
  reflexivity.
Defined.

(** C3 at two states on the word with three short utterances. *)
Lemma get_model_score_closed_form_witness :
  exists D, n_features (fitted_with 2 false) = Ok D
    /\ get_model_score three_short 2 = BIC_closed_form 0 2 D 3
    /\ (forall p : float,
          sequences three_short <> [] ->
          float_of_int (2 * 2 + 2 * 2 * D - 1) = Ok p ->
          get_model_score three_short 2
          = Ok (PrimFloat.mul (-2) 0 + p * libm_log 3)%float).
Proof.
  apply (get_model_score_closed_form three_short 2 (fitted_with 2 false) 0%float);
    reflexivity.
Defined.

(** C7 at the word with two short utterances and a long one. *)
Lemma cv_failed_folds_are_excluded_witness :
  (forall n_comp, exists model,
      avg_score short_short_long n_comp
      = Ok (cv_average
              (successful_scores short_short_long n_comp
                 [([1; 2], [0]); ([0; 2], [1]); ([0; 1], [2])]%nat), model))
  /\ (forall n_comp,
        Forall (fun fold => fold_score short_short_long n_comp fold = None)
               [([1; 2], [0]); ([0; 2], [1]); ([0; 1], [2])]%nat ->
        exists model, avg_score short_short_long n_comp = Ok (neg_infinity, model))
  /\ (forall n_comp rest st hmm_model,
        avg_score short_short_long n_comp = Ok (neg_infinity, hmm_model) ->
        cv_loop short_short_long (n_comp :: rest) st = cv_loop short_short_long rest st)
  /\ (Forall (fun n_comp => exists hmm_model,
                avg_score short_short_long n_comp = Ok (neg_infinity, hmm_model))
             (py_range (min_n_components short_short_long)
                       (max_n_components short_short_long + 1)) ->
      SelectorCV_select short_short_long = Ok None).
Proof.
  apply (cv_failed_folds_are_excluded short_short_long
           [([1; 2], [0]); ([0; 2], [1]); ([0; 1], [2])]%nat).
  reflexivity.
Defined.

(** C8 at a flat index that holds the word alone. *)
Lemma dic_single_word_returns_none_witness :
  SelectorDIC_select seen_once = None.
Proof.
  apply (dic_single_word_returns_none seen_once
           ([fr 1; fr 2; fr 3], [3])).
  reflexivity.
Defined.

(** C4 at two states on a flat index of two words. *)
Lemma dic_is_own_score_minus_mean_of_others_witness :
  exists scoreB dic,
    [2%float] = [scoreB]
    /\ dic_score fish_and_chips 2 = Ok (dic, fitted_with 2 false)
    /\ same_number dic (5 - scoreB)%float.
Proof.
  apply (dic_is_own_score_minus_mean_of_others
           fish_and_chips 2 (fitted_with 2 false) 5%float [2%float]);
    try reflexivity.
  unfold well_formed_dict. cbn.
  constructor.
  - intros [H|[]]. discriminate H.
  - constructor; [intros []|constructor].
Defined.

(** C2 at a word seen once. *)
Lemma cv_select_raises_below_two_sequences_witness :
  select CV seen_once = Raise ValueError.
Proof.
  apply (cv_select_raises_below_two_sequences seen_once).
  - cbn. lia.
  - cbn. lia.
Defined.

(** C1, at an input where it fails: two states can be fitted and scored,
    three cannot; the failure at three ends the search, the model for two
    states is dropped and [select] returns what the constant strategy
    returns, here [None]. *)
Theorem bic_one_failure_discards_the_search :
  is_ok (get_model_score two_short 2) = true
  /\ base_model two_short 2 = Some (fitted_with 2 false)
  /\ get_model_score two_short 3 = Raise AttributeError
  /\ fst (SelectorBIC_select two_short) = SelectorConstant_select two_short
  /\ fst (SelectorBIC_select two_short) = None.
Proof. repeat split; vm_compute; reflexivity. Qed.

(** C5, at an input where it fails: two and three states succeed and two
    has the lower BIC, four states fail; [select] returns the model of the
    constant, three states, not the minimiser. *)
Theorem bic_returns_constant_not_minimiser :
  (score_or_nan (get_model_score three_short 2)
   <? score_or_nan (get_model_score three_short 3))%float = true
  /\ is_ok (get_model_score three_short 2) = true
  /\ is_ok (get_model_score three_short 3) = true
  /\ is_ok (get_model_score three_short 4) = false
  /\ n_constant three_short = 3
  /\ fst (SelectorBIC_select three_short) = Some (fitted_with 3 false).
Proof. repeat split; vm_compute; reflexivity. Qed.

(** C10, at an input where it fails: the first two folds fit and score,
    the fit of the third fold raises; the candidate wins with the average
    of the two scores and [select] returns the object of the third fold,
    which is not fitted. *)
Theorem cv_returns_object_of_failed_last_fold :
  KFold_split (n_split short_short_long) (length (sequences short_short_long))
  = Ok [([1; 2], [0]); ([0; 2], [1]); ([0; 1], [2])]%nat
  /\ map (fold_score short_short_long 3)
         [([1; 2], [0]); ([0; 2], [1]); ([0; 1], [2])]%nat
     = [Some (-3)%float; Some (-2)%float; None]
  /\ SelectorCV_select short_short_long = Ok (Some (GaussianHMM_new 3 14 false))
  /\ is_fitted (GaussianHMM_new 3 14 false) = false.
Proof. repeat split; vm_compute; reflexivity. Qed.

End Runs.

(** * Further properties of the selectors *)

(** ** The dicts and the constructor *)

Lemma dict_get_ok_iff {V : Type} (d : dict V) (k : string) :
  is_ok (dict_get d k) = true <-> In k (map fst d).
Proof.
  induction d as [|[k' v] d IH]; cbn [dict_get map fst In].
  - split; [discriminate|intros []].
  - destruct (String.eqb_spec k' k) as [->|Hne].
    + split; [now left|reflexivity].
    + rewrite IH. split; [now right|intros [H|H]; [contradiction|exact H]].
Qed.

Lemma dict_get_raises {V : Type} (d : dict V) (k : string) (e : exn) :
  dict_get d k = Raise e -> e = KeyError /\ ~ In k (map fst d).
Proof.
  intros E. split.
  - induction d as [|[k' v] d IH]; cbn [dict_get] in E.
    + now injection E as <-.
    + destruct (String.eqb k' k); [discriminate|auto].
  - intros Hin. apply dict_get_ok_iff in Hin. now rewrite E in Hin.
Qed.

Section MoreSelectorFacts.

Context {ext : Externals}.

(** X1: the constructor raises, a [KeyError], exactly when the word is not
    a key of both dicts; when it returns, the selector keeps the two dicts,
    its [sequences] is the entry of the word in the first and its
    [X], [lengths] the entry of the word in the second. *)
Theorem ModelSelector_init_key_error
  (all_word_sequences : dict (list sequence))
  (all_word_Xlengths : dict (list frame * list Z))
  (word : string) (n_const min_n max_n seed : Z) (verb : bool) :
  match ModelSelector_init all_word_sequences all_word_Xlengths word
                           n_const min_n max_n seed verb with
  | Raise e =>
      e = KeyError
      /\ ~ (In word (map fst all_word_sequences)
            /\ In word (map fst all_word_Xlengths))
  | Ok self =>
      dict_get all_word_sequences word = Ok (sequences self)
      /\ dict_get all_word_Xlengths word = Ok (X self, lengths self)
      /\ words self = all_word_sequences
      /\ hwords self = all_word_Xlengths
      /\ this_word self = word
      /\ (n_constant self, min_n_components self, max_n_components self)
         = (n_const, min_n, max_n)
  end.
Proof.
  unfold ModelSelector_init.
  destruct (dict_get all_word_sequences word) as [seqs|e] eqn:Es; cbn [bind].
  - destruct (dict_get all_word_Xlengths word) as [[x l]|e] eqn:Ex; cbn [bind].
    + cbn. repeat split.
    + apply dict_get_raises in Ex as [-> Hnot]. split; [reflexivity|tauto].
  - apply dict_get_raises in Es as [-> Hnot]. split; [reflexivity|tauto].
Qed.

(** ** What a returned model looks like *)

Lemma fit_fitted (m hmm_model : GaussianHMM) (x : list frame) (l : list Z) :
  fit m x l = Ok hmm_model ->
  is_fitted hmm_model = true /\ args hmm_model = args m.
Proof.
  unfold fit. destruct (hmm_fit _ _ _) as [p|e]; cbn [bind]; [|discriminate].
  intros [= <-]. split; reflexivity.
Qed.

Lemma base_model_shape (self : ModelSelector) (n : Z) (m : GaussianHMM) :
  base_model self n = Some m ->
  is_fitted m = true
  /\ args m = args (GaussianHMM_new n (random_state self) false).
Proof.
  unfold base_model.
  destruct (fit _ _ _) as [hmm_model|e] eqn:E; [|discriminate].
  intros [= <-]. exact (fit_fitted _ _ _ _ E).
Qed.

Lemma dic_score_shape (self : ModelSelector) (nc : Z) (d : float) (m : GaussianHMM) :
  dic_score self nc = Ok (d, m) ->
  is_fitted m = true
  /\ args m = args (GaussianHMM_new nc (random_state self) (verbose self)).
Proof.
  unfold dic_score.
  destruct (fit _ _ _) as [hmm_model|e] eqn:E; cbn [bind]; [|discriminate].
  destruct (score hmm_model _ _) as [logL|e]; cbn [bind]; [|discriminate].
  destruct (dic_others _ _ _ _) as [sc|e]; cbn [bind]; [|discriminate].
  destruct (py_truediv_int _ _) as [mean|e]; cbn [bind]; [|discriminate].
  intros [= _ <-]. exact (fit_fitted _ _ _ _ E).
Qed.

Lemma in_py_range (lo hi n : Z) : In n (py_range lo hi) <-> lo <= n < hi.
Proof.
  unfold py_range. rewrite in_map_iff. split.
  - intros (i & <- & Hi). apply in_seq in Hi. lia.
  - intros H. exists (Z.to_nat (n - lo)). split; [lia|]. apply in_seq. lia.
Qed.

(** ** SelectorBIC: what the call leaves behind *)

Lemma bic_loop_shape (self : ModelSelector) (candidates : list Z) :
  forall st,
    bic_self st = self
    \/ bic_self st = set_Xlengths self (combined_X self) (combined_lengths self) ->
    exists self' r,
      bic_loop candidates st = (self', r)
      /\ (self' = self
          \/ self' = set_Xlengths self (combined_X self) (combined_lengths self))
      /\ match r with
         | Ok st' =>
             bic_self st' = self'
             /\ (bic_model st' = bic_model st
                 \/ exists n,
                      In n candidates
                      /\ self' = set_Xlengths self (combined_X self)
                                              (combined_lengths self)
                      /\ bic_model st' = Some (base_model self' n))
         | Raise _ => True
         end.
Proof.
  induction candidates as [|n rest IH]; intros st Hst.
  - exists (bic_self st), (Ok st). cbn [bic_loop]. auto.
  - cbn [bic_loop].
    destruct (get_model_score (bic_self st) n) as [model_score|e].
    2:{ exists (bic_self st), (Raise e). auto. }
    destruct (model_score <? best_score_so_far st)%float.
    + rewrite combine_all.
      assert (Hnew : set_Xlengths (bic_self st) (combined_X (bic_self st))
                                  (combined_lengths (bic_self st))
                     = set_Xlengths self (combined_X self) (combined_lengths self))
        by (destruct Hst as [->| ->]; reflexivity).
      rewrite Hnew.
      destruct (IH {| bic_self := set_Xlengths self (combined_X self)
                                               (combined_lengths self);
                      best_score_so_far := model_score;
                      bic_model := Some (base_model
                                           (set_Xlengths self (combined_X self)
                                                         (combined_lengths self)) n) |})
        as (self' & r & E & Hself & Hr); [now right|].
      exists self', r. split; [exact E|]. split; [exact Hself|].
      destruct r as [st'|e]; [|exact I].
      destruct Hr as [Hst' [Hsame|(k & Hk & Hc & Hm)]]; split; auto; right.
      * cbn [bic_model bic_self] in Hsame.
        assert (Hc : self' = set_Xlengths self (combined_X self) (combined_lengths self)).
        { (* the loop on the rest does not leave the combined selector *)
          destruct Hself as [->|Hc']; [|exact Hc'].
          clear - E Hst'.
          assert (Hkeep : forall cs s0,
                     X (bic_self s0) = combined_X (bic_self s0) ->
                     lengths (bic_self s0) = combined_lengths (bic_self s0) ->
                     forall s1 r1, bic_loop cs s0 = (s1, r1) -> s1 = bic_self s0).
          { induction cs as [|c cs IHc]; intros s0 HX Hl s1 r1; cbn [bic_loop].
            - now intros [= <- _].
            - destruct (get_model_score (bic_self s0) c) as [sc|e0];
                [|now intros [= <- _]].
              destruct (sc <? best_score_so_far s0)%float; [|now apply IHc].
              rewrite combine_all, <- HX, <- Hl, set_Xlengths_same.
              intros E1. now apply IHc in E1. }
          apply (fun HX Hl => Hkeep _ _ HX Hl _ _ E); reflexivity. }
        exists n. repeat split; auto using in_eq. now rewrite Hc.
      * exists k. repeat split; auto using in_cons.
    + destruct (IH st Hst) as (self' & r & E & Hself & Hr).
      exists self', r. split; [exact E|]. split; [exact Hself|].
      destruct r as [st'|e]; [|exact I].
      destruct Hr as [Hst' [Hsame|(k & Hk & Hc & Hm)]]; split; auto.
      right. exists k. repeat split; auto using in_cons.
Qed.

(** X2: [SelectorBIC.select] changes nothing of the selector but [X] and
    [lengths], which are left as they were or as the combination of all the
    sequences of the word; the value it returns is either the fit with
    [n_constant] states on the selector as it is left, or, the selector
    then holding the combined sequences, the fit on them for a state count
    of the range. *)
Theorem bic_select_shape (self : ModelSelector) :
  (snd (SelectorBIC_select self) = self
   \/ snd (SelectorBIC_select self)
      = set_Xlengths self (combined_X self) (combined_lengths self))
  /\ (fst (SelectorBIC_select self)
      = base_model (snd (SelectorBIC_select self)) (n_constant self)
      \/ exists n,
           min_n_components self <= n <= max_n_components self
           /\ snd (SelectorBIC_select self)
              = set_Xlengths self (combined_X self) (combined_lengths self)
           /\ fst (SelectorBIC_select self)
              = base_model (set_Xlengths self (combined_X self)
                                         (combined_lengths self)) n).
Proof.
  unfold SelectorBIC_select, bic_try.
  destruct (bic_loop_shape self
              (py_range (min_n_components self) (max_n_components self + 1))
              {| bic_self := self; best_score_so_far := infinity; bic_model := None |})
    as (self' & r & E & Hself & Hr); [now left|].
  rewrite E.
  assert (Hconst : n_constant self' = n_constant self)
    by (destruct Hself as [->| ->]; reflexivity).
  destruct r as [st'|e]; cbn [fst snd].
  - destruct Hr as [_ [Hsame|(n & Hn & Hc & Hm)]].
    + cbn [bic_model] in Hsame. rewrite Hsame. cbn [fst snd].
      rewrite Hconst. auto.
    + rewrite Hm. cbn [fst snd]. split; [exact Hself|]. right.
      exists n. apply in_py_range in Hn. subst self'. repeat split; auto; lia.
  - rewrite Hconst. auto.
Qed.

(** ** SelectorBIC on a selector whose flat entry is the combined data *)

Lemma first_unscorable (self : ModelSelector) (candidates : list Z) :
  (exists n, In n candidates /\ is_ok (get_model_score self n) = false) ->
  exists before n after,
    candidates = (before ++ n :: after)%list
    /\ Forall (fun k => is_ok (get_model_score self k) = true) before
    /\ is_ok (get_model_score self n) = false.
Proof.
  induction candidates as [|c rest IH]; intros (n & Hin & Hn); [destruct Hin|].
  destruct (is_ok (get_model_score self c)) eqn:Ec.
  - destruct Hin as [->|Hin]; [congruence|].
    destruct IH as (before & k & after & -> & Hb & Hk); [eauto|].
    exists (c :: before), k, after. repeat split; auto.
  - exists [], c, rest. repeat split; auto.
Qed.

(** X3: on a selector whose [X], [lengths] are the combination of its
    sequences, one candidate of the range whose score cannot be computed,
    wherever it stands in the range, makes [SelectorBIC.select] return what
    [SelectorConstant.select] returns, and the selector is unchanged. *)
Theorem bic_unscorable_candidate_gives_constant (self : ModelSelector) :
  X self = combined_X self -> lengths self = combined_lengths self ->
  (exists n, min_n_components self <= n <= max_n_components self
             /\ is_ok (get_model_score self n) = false) ->
  SelectorBIC_select self = (SelectorConstant_select self, self).
Proof.
  intros HX Hl (n0 & Hn0 & Hbad).
  destruct (first_unscorable self
              (py_range (min_n_components self) (max_n_components self + 1)))
    as (before & n & after & Hrange & Hbefore & Hn).
  { exists n0. split; [apply in_py_range; lia|exact Hbad]. }
  destruct (bic_loop_minimum self before HX Hl Hbefore infinity None)
    as (best' & model' & Eloop & _).
  unfold SelectorBIC_select, bic_try.
  rewrite Hrange, bic_loop_app, Eloop. cbn [bic_loop bic_self].
  destruct (get_model_score self n) as [s|e]; [discriminate|reflexivity].
Qed.

(** X4: on such a selector, when every candidate of the range is scored
    but no score is below plus infinity (the scores are plus infinity or
    not a number), nothing is ever bound to [model] and
    [SelectorBIC.select] returns what [SelectorConstant.select] returns. *)
Theorem bic_no_score_below_infinity_gives_constant (self : ModelSelector) :
  X self = combined_X self -> lengths self = combined_lengths self ->
  (forall n, min_n_components self <= n <= max_n_components self ->
             exists s, get_model_score self n = Ok s
                       /\ (s <? infinity)%float = false) ->
  SelectorBIC_select self = (SelectorConstant_select self, self).
Proof.
  intros HX Hl Hall.
  assert (Hok : Forall (fun n => is_ok (get_model_score self n) = true)
                       (py_range (min_n_components self) (max_n_components self + 1))).
  { apply Forall_forall. intros n Hn. apply in_py_range in Hn.
    destruct (Hall n ltac:(lia)) as (s & -> & _). reflexivity. }
  destruct (bic_loop_minimum self _ HX Hl Hok infinity None)
    as (best' & model' & Eloop & [(_ & -> & _)|(k & Hk & Ek & _ & Hlt & _)]).
  - unfold SelectorBIC_select, bic_try. rewrite Eloop. reflexivity.
  - apply in_py_range in Hk. destruct (Hall k ltac:(lia)) as (s & Es & Hs).
    rewrite Ek in Es. injection Es as <-. congruence.
Qed.

(** X5: on such a selector, when every candidate of the range is scored
    and one score is below plus infinity, [SelectorBIC.select] returns a
    fitted model whose number of states is a candidate that no candidate of
    the range has a lower score than; the selector is unchanged. *)
Theorem bic_returns_fitted_minimiser (self : ModelSelector) :
  X self = combined_X self -> lengths self = combined_lengths self ->
  (forall n, min_n_components self <= n <= max_n_components self ->
             is_ok (get_model_score self n) = true) ->
  (exists n s, min_n_components self <= n <= max_n_components self
               /\ get_model_score self n = Ok s
               /\ (s <? infinity)%float = true) ->
  exists k sk model,
    min_n_components self <= k <= max_n_components self
    /\ get_model_score self k = Ok sk
    /\ SelectorBIC_select self = (Some model, self)
    /\ is_fitted model = true
    /\ n_components (args model) = k
    /\ forall n s, min_n_components self <= n <= max_n_components self ->
                   get_model_score self n = Ok s -> (s <? sk)%float = false.
Proof.
  intros HX Hl Hall (n0 & s0 & Hn0 & Es0 & Hlt0).
  destruct (bic_all_scored_returns_minimiser self HX Hl)
    as (k & sk & model & Hk & Ek & Em & Esel & Hmin).
  { apply Forall_forall. intros n Hn. apply in_py_range in Hn. apply Hall. lia. }
  { exists n0, s0. split; [apply in_py_range; lia|auto]. }
  exists k, sk, model. apply in_py_range in Hk.
  destruct (base_model_shape _ _ _ Em) as [Hfit Hargs].
  repeat split; auto; try lia.
  - now rewrite Hargs.
  - intros n s Hn. apply Hmin. apply in_py_range. lia.
Qed.

Lemma get_model_score_no_sequences (self : ModelSelector) (n : Z) :
  sequences self = [] -> is_ok (get_model_score self n) = false.
Proof.
  intros Hs. unfold get_model_score. rewrite combine_all. cbn [bind].
  destruct (base_model self n) as [model|]; [|reflexivity].
  destruct (score model _ _) as [logL|e]; cbn [bind]; [|reflexivity].
  change (float_of_int (-2)) with (Ok (-2)%float). cbn [bind].
  destruct (n_features model) as [D|e]; cbn [bind]; [|reflexivity].
  rewrite Hs. reflexivity.
Qed.

(** X6: for a word without utterance sequences no candidate can be scored
    ([math.log] is asked for the logarithm of zero at the latest), and
    [SelectorBIC.select] returns what [SelectorConstant.select] returns,
    whatever the range; the selector is unchanged. *)
Theorem bic_no_sequences_gives_constant (self : ModelSelector) :
  sequences self = [] ->
  SelectorBIC_select self = (SelectorConstant_select self, self).
Proof.
  intros Hs. unfold SelectorBIC_select, bic_try.
  destruct (Z_lt_le_dec (max_n_components self) (min_n_components self)) as [Hlt|Hle].
  - rewrite py_range_empty by lia. reflexivity.
  - rewrite py_range_cons by lia. cbn [bic_loop bic_self].
    pose proof (get_model_score_no_sequences self (min_n_components self) Hs) as Hbad.
    destruct (get_model_score self (min_n_components self)) as [s|e];
      [discriminate|reflexivity].
Qed.

(** ** SelectorDIC: the search *)

Lemma dic_fold_maximum (self : ModelSelector) (candidates : list Z) :
  forall l model, exists l' model',
    fold_left (dic_step self) candidates (l, model) = (l', model')
    /\ ((l' = l /\ model' = model
         /\ forall nc d m, In nc candidates -> dic_score self nc = Ok (d, m) ->
                           (l <? d)%float = false)
        \/ (exists k m, In k candidates
                        /\ dic_score self k = Ok (l', m)
                        /\ model' = Some m
                        /\ (l <? l')%float = true
                        /\ forall nc d m', In nc candidates ->
                                           dic_score self nc = Ok (d, m') ->
                                           (l' <? d)%float = false)).
Proof.
  induction candidates as [|n rest IH]; intros l model.
  - exists l, model. split; [reflexivity|]. left. repeat split. intros nc d m [].
  - cbn [fold_left]. unfold dic_step at 2.
    destruct (dic_score self n) as [[dic hmm_model]|e] eqn:En.
    + destruct (l <? dic)%float eqn:Hlt.
      * destruct (IH dic (Some hmm_model))
          as (l' & model' & E & [(-> & -> & Hmax)|(k & m & Hk & Ek & -> & Hlt' & Hmax)]).
        -- exists dic, (Some hmm_model). split; [exact E|]. right.
           exists n, hmm_model. repeat split; auto using in_eq.
           intros nc d m' [<-|Hin] Enc; [|now apply (Hmax nc d m')].
           rewrite En in Enc. injection Enc as <- _. apply ltb_irrefl.
        -- exists l', (Some m). split; [exact E|]. right.
           exists k, m. repeat split; auto using in_cons.
           ++ now apply (ltb_trans _ dic).
           ++ intros nc d m' [<-|Hin] Enc; [|now apply (Hmax nc d m')].
              rewrite En in Enc. injection Enc as <- _. now apply ltb_asym.
      * destruct (IH l model)
          as (l' & model' & E & [(-> & -> & Hmax)|(k & m & Hk & Ek & -> & Hlt' & Hmax)]).
        -- exists l, model. split; [exact E|]. left. repeat split.
           intros nc d m' [<-|Hin] Enc; [|now apply (Hmax nc d m')].
           rewrite En in Enc. now injection Enc as <- _.
        -- exists l', (Some m). split; [exact E|]. right.
           exists k, m. repeat split; auto using in_cons.
           intros nc d m' [<-|Hin] Enc; [|now apply (Hmax nc d m')].
           rewrite En in Enc. injection Enc as <- _.
           destruct (l' <? dic)%float eqn:Hld; [|reflexivity].
           now rewrite (ltb_trans _ _ _ Hlt' Hld) in Hlt.
    + destruct (IH l model)
        as (l' & model' & E & [(-> & -> & Hmax)|(k & m & Hk & Ek & -> & Hlt' & Hmax)]).
      * exists l, model. split; [exact E|]. left. repeat split.
        intros nc d m' [<-|Hin] Enc; [congruence|now apply (Hmax nc d m')].
      * exists l', (Some m). split; [exact E|]. right.
        exists k, m. repeat split; auto using in_cons.
        intros nc d m' [<-|Hin] Enc; [congruence|now apply (Hmax nc d m')].
Qed.

(** X7: a model returned by [SelectorDIC.select] is fitted on the data of
    the word, its number of states is a candidate of the range whose DIC is
    above minus infinity, and no candidate of the range has a higher DIC. *)
Theorem dic_returns_fitted_maximiser (self : ModelSelector) (model : GaussianHMM) :
  SelectorDIC_select self = Some model ->
  exists k dic,
    min_n_components self <= k <= max_n_components self
    /\ dic_score self k = Ok (dic, model)
    /\ is_fitted model = true
    /\ n_components (args model) = k
    /\ (neg_infinity <? dic)%float = true
    /\ forall nc d m, min_n_components self <= nc <= max_n_components self ->
                      dic_score self nc = Ok (d, m) -> (dic <? d)%float = false.
Proof.
  unfold SelectorDIC_select.
  destruct (dic_fold_maximum self
              (py_range (min_n_components self) (max_n_components self + 1))
              neg_infinity None)
    as (l' & model' & E & [(_ & -> & _)|(k & m & Hk & Ek & -> & Hlt & Hmax)]);
    rewrite E; cbn [snd]; [discriminate|].
  intros [= ->]. exists k, l'. apply in_py_range in Hk.
  destruct (dic_score_shape _ _ _ _ Ek) as [Hfit Hargs].
  repeat split; auto; try lia.
  - now rewrite Hargs.
  - intros nc d m Hnc. apply Hmax. apply in_py_range. lia.
Qed.

(** X8: [SelectorDIC.select] returns [None] exactly when no candidate of
    the range has a DIC above minus infinity: each candidate either raises
    inside the [try] or has a DIC that is minus infinity or not a number. *)
Theorem dic_returns_none_iff (self : ModelSelector) :
  SelectorDIC_select self = None
  <-> forall nc d m, min_n_components self <= nc <= max_n_components self ->
                     dic_score self nc = Ok (d, m) ->
                     (neg_infinity <? d)%float = false.
Proof.
  unfold SelectorDIC_select.
  destruct (dic_fold_maximum self
              (py_range (min_n_components self) (max_n_components self + 1))
              neg_infinity None)
    as (l' & model' & E & [(_ & -> & Hmax)|(k & m & Hk & Ek & -> & Hlt & Hmax)]);
    rewrite E; cbn [snd].
  - split; [|reflexivity]. intros _ nc d m Hnc. apply Hmax. apply in_py_range. lia.
  - split; [discriminate|]. intros Hnone. apply in_py_range in Hk.
    rewrite (Hnone k l' m ltac:(lia) Ek) in Hlt. discriminate.
Qed.

(** ** The empty range outside SelectorBIC *)

(** X9: when [min_n_components > max_n_components], [SelectorDIC.select]
    and [SelectorCV.select] return [None] without calling the trainer or the
    splitter: [SelectorCV.select] does so also for a word with fewer than
    two utterance sequences. *)
Theorem empty_range_gives_none (self : ModelSelector) :
  max_n_components self < min_n_components self ->
  SelectorDIC_select self = None /\ SelectorCV_select self = Ok None.
Proof.
  intros Hlt. unfold SelectorDIC_select, SelectorCV_select.
  rewrite py_range_empty by lia. split; reflexivity.
Qed.

(** ** SelectorCV: the search *)

Lemma cv_fold_try_shape (self : ModelSelector) (n_comp : Z)
  (x_train x_test : list frame) (len_train len_test : list Z)
  (st : list float * option GaussianHMM) :
  exists m, snd (cv_fold_try self n_comp x_train len_train x_test len_test st) = Some m
            /\ args m = args (GaussianHMM_new n_comp (random_state self) (verbose self)).
Proof.
  unfold cv_fold_try. destruct st as [scores model].
  destruct (fit _ x_train len_train) as [hmm_model|e] eqn:E.
  - apply fit_fitted in E as [_ Hargs].
    destruct (score hmm_model x_test len_test); exists hmm_model; auto.
  - eexists. split; reflexivity.
Qed.

Lemma cv_folds_shape (self : ModelSelector) (n_comp : Z)
  (folds : list (list nat * list nat)) :
  forall st scores model,
    (forall m, snd st = Some m ->
               args m = args (GaussianHMM_new n_comp (random_state self) (verbose self))) ->
    cv_folds self n_comp folds st = Ok (scores, model) ->
    forall m, model = Some m ->
              args m = args (GaussianHMM_new n_comp (random_state self) (verbose self)).
Proof.
  induction folds as [|[train test] folds IH]; intros st scores model Hst.
  - cbn [cv_folds]. intros [= ->]. exact Hst.
  - cbn [cv_folds].
    destruct (combine_sequences train _) as [[x_train len_train]|e]; cbn [bind];
      [|discriminate].
    destruct (combine_sequences test _) as [[x_test len_test]|e]; cbn [bind];
      [|discriminate].
    apply IH. intros m Hm.
    destruct (cv_fold_try_shape self n_comp x_train x_test len_train len_test st)
      as (m' & Em' & Hargs).
    rewrite Em' in Hm. now injection Hm as <-.
Qed.

Lemma avg_score_shape (self : ModelSelector) (n_comp : Z) (avg : float)
  (m : GaussianHMM) :
  avg_score self n_comp = Ok (avg, Some m) ->
  args m = args (GaussianHMM_new n_comp (random_state self) (verbose self)).
Proof.
  unfold avg_score.
  destruct (KFold_split _ _) as [folds|e]; cbn [bind]; [|discriminate].
  destruct (cv_folds self n_comp folds ([], None)) as [[scores model]|e] eqn:E;
    cbn [bind]; [|discriminate].
  intros [= _ ->].
  eapply (cv_folds_shape self n_comp folds ([], None)); eauto.
  cbn [snd]. discriminate.
Qed.

Lemma cv_loop_maximum (self : ModelSelector) (candidates : list Z) :
  forall l model l' model',
    cv_loop self candidates (l, model) = Ok (l', model') ->
    (l' = l /\ model' = model
     /\ forall n a m, In n candidates -> avg_score self n = Ok (a, m) ->
                      (l <? a)%float = false)
    \/ (exists k, In k candidates
                  /\ avg_score self k = Ok (l', model')
                  /\ (l <? l')%float = true
                  /\ forall n a m, In n candidates -> avg_score self n = Ok (a, m) ->
                                   (l' <? a)%float = false).
Proof.
  induction candidates as [|n rest IH]; intros l model l' model'.
  - cbn [cv_loop]. intros [= <- <-]. left. repeat split. intros n a m [].
  - cbn [cv_loop].
    destruct (avg_score self n) as [[avg hmm_model]|e] eqn:En; cbn [bind];
      [|discriminate].
    destruct (l <? avg)%float eqn:Hlt; intros E; apply IH in E.
    + destruct E as [(-> & -> & Hmax)|(k & Hk & Ek & Hlt' & Hmax)]; right.
      * exists n. repeat split; auto using in_eq.
        intros c a m [<-|Hin] Ec; [|now apply (Hmax c a m)].
        rewrite En in Ec. injection Ec as <- _. apply ltb_irrefl.
      * exists k. repeat split; auto using in_cons.
        -- now apply (ltb_trans _ avg).
        -- intros c a m [<-|Hin] Ec; [|now apply (Hmax c a m)].
           rewrite En in Ec. injection Ec as <- _. now apply ltb_asym.
    + destruct E as [(-> & -> & Hmax)|(k & Hk & Ek & Hlt' & Hmax)].
      * left. repeat split.
        intros c a m [<-|Hin] Ec; [|now apply (Hmax c a m)].
        rewrite En in Ec. now injection Ec as <- _.
      * right. exists k. repeat split; auto using in_cons.
        intros c a m [<-|Hin] Ec; [|now apply (Hmax c a m)].
        rewrite En in Ec. injection Ec as <- _.
        destruct (l' <? avg)%float eqn:Hla; [|reflexivity].
        now rewrite (ltb_trans _ _ _ Hlt' Hla) in Hlt.
Qed.

(** X10: an object returned by [SelectorCV.select] was made for a state
    count of the range whose average held-out score is above minus
    infinity, and no candidate of the range has a higher average. *)
Theorem cv_returns_maximiser (self : ModelSelector) (model : GaussianHMM) :
  SelectorCV_select self = Ok (Some model) ->
  exists k avg,
    min_n_components self <= k <= max_n_components self
    /\ avg_score self k = Ok (avg, Some model)
    /\ n_components (args model) = k
    /\ (neg_infinity <? avg)%float = true
    /\ forall n a m, min_n_components self <= n <= max_n_components self ->
                     avg_score self n = Ok (a, m) -> (avg <? a)%float = false.
Proof.
  unfold SelectorCV_select.
  destruct (cv_loop self _ (neg_infinity, None)) as [[l' model']|e] eqn:E;
    cbn [bind]; [|discriminate].
  intros [= ->].
  apply cv_loop_maximum in E as [(_ & Hnone & _)|(k & Hk & Ek & Hlt & Hmax)];
    [discriminate|].
  exists k, l'. apply in_py_range in Hk.
  repeat split; auto; try lia.
  - now rewrite (avg_score_shape _ _ _ _ Ek).
  - intros n a m Hn. apply Hmax. apply in_py_range. lia.
Qed.

(** ** SelectorCV: words with at least two utterances *)

Lemma KFold_split_ok (self : ModelSelector) :
  (2 <= length (sequences self))%nat ->
  exists folds, KFold_split (n_split self) (length (sequences self)) = Ok folds.
Proof.
  intros H2. unfold KFold_split, n_split.
  destruct (Nat.ltb_spec (length (sequences self)) 3);
    match goal with
    | |- context [(?n <? ?k)%nat] => destruct (Nat.ltb_spec n k)
    end; try lia; eauto.
Qed.

Lemma avg_score_ok (self : ModelSelector) (n_comp : Z) :
  (2 <= length (sequences self))%nat ->
  exists avg model, avg_score self n_comp = Ok (avg, model).
Proof.
  intros H2. destruct (KFold_split_ok self H2) as [folds Hsplit].
  destruct (avg_score_average self n_comp folds Hsplit) as [model E]. eauto.
Qed.

Lemma cv_loop_ok (self : ModelSelector) (candidates : list Z) :
  (2 <= length (sequences self))%nat ->
  forall st, exists st', cv_loop self candidates st = Ok st'.
Proof.
  intros H2. induction candidates as [|n rest IH]; intros st; [now exists st|].
  cbn [cv_loop]. destruct (avg_score_ok self n H2) as (avg & model & ->).
  cbn [bind]. destruct st as [lowest_score m].
  destruct (lowest_score <? avg)%float; apply IH.
Qed.

(** X11: for a word with at least two utterance sequences
    [SelectorCV.select] returns, whatever the trainer does: every failure
    of [fit] or [score] stays inside the [try] of its fold. *)
Theorem cv_select_returns_from_two_sequences (self : ModelSelector) :
  (2 <= length (sequences self))%nat ->
  exists model, SelectorCV_select self = Ok model.
Proof.
  intros H2. unfold SelectorCV_select.
  destruct (cv_loop_ok self
              (py_range (min_n_components self) (max_n_components self + 1))
              H2 (neg_infinity, None)) as [[l model] ->].
  cbn [bind]. eauto.
Qed.

(** ** SelectorCV: which model comes back *)

Lemma kfold_iter_app (a b : list nat) (c n : nat) :
  kfold_iter (a ++ b) c n
  = (kfold_iter a c n ++ kfold_iter b (c + list_sum a) n)%list.
Proof.
  revert c. induction a as [|sz a IH]; intros c.
  - cbn [app kfold_iter]. change (list_sum []) with 0%nat. now rewrite Nat.add_0_r.
  - cbn [app kfold_iter]. rewrite IH.
    change (list_sum (sz :: a)) with (sz + list_sum a)%nat.
    now rewrite Nat.add_assoc.
Qed.

Lemma fold_sizes_last (k n : nat) :
  exists init, fold_sizes (S k) n = (init ++ [n / S k])%nat%list
               /\ (list_sum init + n / S k = n)%nat.
Proof.
  exists (map (fun i => (n / S k + (if (i <? n mod S k)%nat then 1 else 0))%nat)
              (seq 0 k)).
  assert (E : fold_sizes (S k) n
              = (map (fun i => (n / S k + (if (i <? n mod S k)%nat then 1 else 0))%nat)
                     (seq 0 k) ++ [n / S k])%nat%list).
  { unfold fold_sizes. rewrite seq_S, map_app. cbn [map Nat.add]. do 2 f_equal.
    pose proof (Nat.mod_upper_bound n (S k) ltac:(lia)).
    destruct (Nat.ltb_spec k (n mod S k)); lia. }
  split; [exact E|].
  pose proof (fold_sizes_sum (S k) n ltac:(lia)) as Hsum.
  rewrite E, list_sum_app in Hsum. cbn [list_sum fold_right] in Hsum.
  unfold list_sum in *. cbn [fold_right] in Hsum. lia.
Qed.

Lemma KFold_split_last (k n : nat) :
  (S k <= n)%nat ->
  exists init,
    KFold_split (S k) n
    = Ok (init ++ [(seq 0 (n - n / S k), seq (n - n / S k) (n / S k))])%list.
Proof.
  intros Hle. unfold KFold_split.
  destruct (Nat.ltb_spec n (S k)); [lia|].
  destruct (fold_sizes_last k n) as (sizes & -> & Hsum).
  rewrite kfold_iter_app. cbn [kfold_iter Nat.add].
  exists (kfold_iter sizes 0 n). do 3 f_equal.
  replace (list_sum sizes) with (n - n / S k)%nat by lia.
  replace (n - (n - n / S k + n / S k))%nat with 0%nat by lia.
  cbn [seq]. now rewrite app_nil_r.
Qed.

(** X12: for a word with N >= 2 utterance sequences and k folds, the
    object [avg_score] hands back with the average is the one made in the
    last fold: it has seen only the first N - N // k utterances, on which
    it is fitted when that fit returned, and it is the bare new object when
    that fit raised; it is never [None] and never a model of all the
    utterances. *)
Theorem avg_score_hands_back_last_fold (self : ModelSelector) (n_comp : Z) :
  (2 <= length (sequences self))%nat ->
  exists x_train len_train avg,
    combine_sequences
      (seq 0 (length (sequences self) - length (sequences self) / n_split self))
      (sequences self) = Ok (x_train, len_train)
    /\ avg_score self n_comp
       = Ok (avg,
             Some (match fit (GaussianHMM_new n_comp (random_state self) (verbose self))
                             x_train len_train with
                   | Ok hmm_model => hmm_model
                   | Raise _ =>
                       GaussianHMM_new n_comp (random_state self) (verbose self)
                   end)).
Proof.
  intros H2.
  assert (Hk : exists k, n_split self = S k /\ (S k <= length (sequences self))%nat).
  { unfold n_split. destruct (Nat.ltb_spec (length (sequences self)) 3);
      eexists; split; try reflexivity; lia. }
  destruct Hk as (k & Ek & Hle).
  destruct (KFold_split_last k _ Hle) as [init Hsplit].
  rewrite <- Ek in Hsplit.
  pose proof (KFold_split_in_range _ _ _ (n_split_positive self) Hsplit) as Hrange.
  apply Forall_app in Hrange as [Hinit Hlast].
  inversion Hlast as [|? ? [Htrain Htest] _]; subst. cbn [fst snd] in Htrain, Htest.
  destruct (combine_sequences_in_range _ _ Htrain) as (x_train & len_train & Etrain).
  destruct (combine_sequences_in_range _ _ Htest) as (x_test & len_test & Etest).
  destruct (cv_folds_last_object self n_comp init _ _ _ _ _ _ Hinit Etrain Etest
              ([], None)) as [scores E].
  exists x_train, len_train,
    (match scores with [] => neg_infinity | _ :: _ => np_mean scores end).
  split; [exact Etrain|].
  unfold avg_score. rewrite Hsplit. cbn [bind]. rewrite E. reflexivity.
Qed.

(** ** Models of the strategies that always return *)

(** X13: a model returned by [SelectorConstant], [SelectorBIC] or
    [SelectorDIC] is fitted and carries the seed of the selector; its
    number of states is [n_constant] for the constant strategy,
    [n_constant] or a candidate of the range for BIC, and a candidate of
    the range for DIC. *)
Theorem returned_model_is_fitted (s : strategy) (self : ModelSelector)
  (model : GaussianHMM) :
  s <> CV ->
  select s self = Ok (Some model) ->
  is_fitted model = true
  /\ hmm_random_state (args model) = random_state self
  /\ match s with
     | Constant => n_components (args model) = n_constant self
     | BIC => n_components (args model) = n_constant self
              \/ min_n_components self <= n_components (args model)
                 <= max_n_components self
     | DIC | CV => min_n_components self <= n_components (args model)
                   <= max_n_components self
     end.
Proof.
  intros Hs. destruct s; cbn [select]; [| | |contradiction]; intros [= E].
  - apply base_model_shape in E as [Hfit ->]. auto.
  - unfold SelectorBIC_select, bic_try in E.
    destruct (bic_loop_shape self
                (py_range (min_n_components self) (max_n_components self + 1))
                {| bic_self := self; best_score_so_far := infinity;
                   bic_model := None |})
      as (self' & r & Eloop & Hself & Hr); [now left|].
    rewrite Eloop in E.
    assert (Hsame : n_constant self' = n_constant self
                    /\ random_state self' = random_state self)
      by (destruct Hself as [->| ->]; split; reflexivity).
    destruct Hsame as [Hconst Hseed].
    assert (Hfallback : base_model self' (n_constant self') = Some model ->
                        is_fitted model = true
                        /\ hmm_random_state (args model) = random_state self
                        /\ (n_components (args model) = n_constant self
                            \/ min_n_components self <= n_components (args model)
                               <= max_n_components self)).
    { intros Eb. apply base_model_shape in Eb as [Hfit ->].
      cbn. rewrite Hconst, Hseed. auto. }
    destruct r as [st'|e]; cbn [fst] in E; [|auto].
    destruct Hr as [_ [Hnone|(n & Hn & Hc & Hm)]].
    + cbn [bic_model] in Hnone. rewrite Hnone in E. cbn [fst] in E. auto.
    + rewrite Hm in E. cbn [fst] in E.
      apply base_model_shape in E as [Hfit ->]. apply in_py_range in Hn.
      cbn. rewrite Hseed. repeat split; auto. right. lia.
  - unfold SelectorDIC_select in E.
    destruct (dic_fold_maximum self
                (py_range (min_n_components self) (max_n_components self + 1))
                neg_infinity None)
      as (l' & model' & Ef & [(_ & -> & _)|(k & m & Hk & Ek & -> & _ & _)]);
      rewrite Ef in E; cbn [snd] in E; [discriminate|].
    injection E as ->. apply dic_score_shape in Ek as [Hfit ->].
    apply in_py_range in Hk. cbn. repeat split; auto; lia.
Qed.

(** ** SelectorDIC: when the mean is undefined *)

Lemma dic_score_mean (self : ModelSelector) (nc : Z) (hmm_model : GaussianHMM)
  (logL : float) (others : list float) :
  S (length others) = length (hwords self) ->
  fit (GaussianHMM_new nc (random_state self) (verbose self))
      (X self) (lengths self) = Ok hmm_model ->
  score hmm_model (X self) (lengths self) = Ok logL ->
  scores_of_others hmm_model (this_word self) (hwords self) = Ok others ->
  dic_score self nc
  = match others with
    | [] => Raise ZeroDivisionError
    | _ :: _ =>
        k <- float_of_int (Z.of_nat (length others)) ;;
        Ok ((logL - fold_left PrimFloat.add others 0 / k)%float, hmm_model)
    end.
Proof.
  intros Hlen Hfit Hscore Hothers.
  unfold dic_score. rewrite Hfit. cbn [bind]. rewrite Hscore. cbn [bind].
  rewrite (dic_others_from_zero _ _ _ _ Hothers). cbn [bind].
  replace (Z.of_nat (length (hwords self)) - 1) with (Z.of_nat (length others))
    by lia.
  unfold py_truediv_int.
  destruct others as [|s others]; [reflexivity|].
  destruct (Z.eqb_spec (Z.of_nat (length (s :: others))) 0) as [E|_];
    [cbn [length] in E; lia|].
  destruct (float_of_int _) as [kf|e]; reflexivity.
Qed.

(** X14: on a flat index with distinct words that holds the word, for a
    state count whose fit and scorings all succeed, the [try] body of
    [SelectorDIC.select] raises [ZeroDivisionError] exactly when the word
    is the only one of the index. *)
Theorem dic_division_by_zero_iff_alone
  (self : ModelSelector) (nc : Z) (hmm_model : GaussianHMM)
  (logL : float) (others : list float) :
  well_formed_dict (hwords self) ->
  is_ok (dict_get (hwords self) (this_word self)) = true ->
  fit (GaussianHMM_new nc (random_state self) (verbose self))
      (X self) (lengths self) = Ok hmm_model ->
  score hmm_model (X self) (lengths self) = Ok logL ->
  scores_of_others hmm_model (this_word self) (hwords self) = Ok others ->
  dic_score self nc = Raise ZeroDivisionError <-> length (hwords self) = 1%nat.
Proof.
  intros Hwf Hin Hfit Hscore Hothers.
  pose proof (scores_of_others_length _ _ _ _ Hwf Hin Hothers) as Hlen.
  rewrite (dic_score_mean self nc hmm_model logL others Hlen Hfit Hscore Hothers).
  destruct others as [|s others]; cbn [length] in Hlen.
  - split; [intros _; lia|reflexivity].
  - split; [|intros H1; lia].
    unfold float_of_int.
    destruct (is_infinity _); cbn [bind]; discriminate.
Qed.

(** ** SelectorCV: words the splitter refuses *)

(** C6, at the input where it fails: for a word with fewer than two
    utterance sequences the fold count asked for is 2, as the claim says,
    but no partition into folds is made: the splitter raises [ValueError]
    and so does [avg_score] for every state count, before any fold is
    fitted. *)
Theorem cv_makes_no_folds_below_two_sequences (self : ModelSelector) (n_comp : Z) :
  (length (sequences self) < 2)%nat ->
  n_split self = 2%nat
  /\ KFold_split (n_split self) (length (sequences self)) = Raise ValueError
  /\ avg_score self n_comp = Raise ValueError.
Proof.
  intros Hlen.
  assert (Hk : n_split self = 2%nat).
  { unfold n_split. destruct (Nat.ltb_spec (length (sequences self)) 3); [reflexivity|lia]. }
  assert (Hsplit : KFold_split (n_split self) (length (sequences self))
                   = Raise ValueError).
  { rewrite Hk. unfold KFold_split.
    destruct (Nat.ltb_spec (length (sequences self)) 2); [reflexivity|lia]. }
  repeat split; [exact Hk|exact Hsplit|].
  unfold avg_score. rewrite Hsplit. reflexivity.
Qed.

End MoreSelectorFacts.

(** ** Further runs on the small trainer *)

Section MoreRuns.

Import Toy.

(** X3 at the word with two one-frame utterances: three states cannot be
    scored. *)
Lemma bic_unscorable_candidate_gives_constant_witness :
  SelectorBIC_select two_short = (SelectorConstant_select two_short, two_short).
Proof.
  apply (bic_unscorable_candidate_gives_constant two_short).
  - reflexivity.
  - reflexivity.
  - exists 3. split; [cbn; lia|reflexivity].
Defined.

(** X4 at a word whose scores are all plus infinity. *)
Lemma bic_no_score_below_infinity_gives_constant_witness :
  SelectorBIC_select hopeless = (SelectorConstant_select hopeless, hopeless).
Proof.
  apply (bic_no_score_below_infinity_gives_constant hopeless).
  - reflexivity.
  - reflexivity.
  - intros n Hn. cbn in Hn. assert (n = 2) as -> by lia.
    exists infinity. split; reflexivity.
Defined.

(** X5 at the word with three one-frame utterances, two and three states. *)
Lemma bic_returns_fitted_minimiser_witness :
  exists k sk model,
    min_n_components three_short_2_3 <= k <= max_n_components three_short_2_3
    /\ get_model_score three_short_2_3 k = Ok sk
    /\ SelectorBIC_select three_short_2_3 = (Some model, three_short_2_3)
    /\ is_fitted model = true
    /\ n_components (args model) = k
    /\ forall n s,
         min_n_components three_short_2_3 <= n <= max_n_components three_short_2_3 ->
         get_model_score three_short_2_3 n = Ok s -> (s <? sk)%float = false.
Proof.
  apply (bic_returns_fitted_minimiser three_short_2_3).
  - reflexivity.
  - reflexivity.
  - intros n Hn. cbn in Hn. assert (n = 2 \/ n = 3) as [-> | ->] by lia; reflexivity.
  - exists 2. eexists. split; [cbn; lia|]. split; reflexivity.
Defined.

(** X6 at a word without utterances. *)
Lemma bic_no_sequences_gives_constant_witness :
  SelectorBIC_select never_seen = (SelectorConstant_select never_seen, never_seen).
Proof. apply (bic_no_sequences_gives_constant never_seen). reflexivity. Defined.

(** X7 at the flat index of two words. *)
Lemma dic_returns_fitted_maximiser_witness :
  exists k dic,
    min_n_components fish_and_chips <= k <= max_n_components fish_and_chips
    /\ dic_score fish_and_chips k = Ok (dic, fitted_with 2 false)
    /\ is_fitted (fitted_with 2 false) = true
    /\ n_components (args (fitted_with 2 false)) = k
    /\ (neg_infinity <? dic)%float = true
    /\ forall nc d m,
         min_n_components fish_and_chips <= nc <= max_n_components fish_and_chips ->
         dic_score fish_and_chips nc = Ok (d, m) -> (dic <? d)%float = false.
Proof.
  apply (dic_returns_fitted_maximiser fish_and_chips (fitted_with 2 false)).
  reflexivity.
Defined.

(** X9 at a selector whose range is empty, for a word seen once. *)
Lemma empty_range_gives_none_witness :
  SelectorDIC_select (selector_of [[fr 1]] [] 3 5 4) = None
  /\ SelectorCV_select (selector_of [[fr 1]] [] 3 5 4) = Ok None.
Proof.
  apply (empty_range_gives_none (selector_of [[fr 1]] [] 3 5 4)).
  cbn. lia.
Defined.

(** X10 at the word with two short utterances and a long one. *)
Lemma cv_returns_maximiser_witness :
  exists k avg,
    min_n_components short_short_long <= k <= max_n_components short_short_long
    /\ avg_score short_short_long k = Ok (avg, Some (GaussianHMM_new 3 14 false))
    /\ n_components (args (GaussianHMM_new 3 14 false)) = k
    /\ (neg_infinity <? avg)%float = true
    /\ forall n a m,
         min_n_components short_short_long <= n <= max_n_components short_short_long ->
         avg_score short_short_long n = Ok (a, m) -> (avg <? a)%float = false.
Proof.
  apply (cv_returns_maximiser short_short_long (GaussianHMM_new 3 14 false)).
  reflexivity.
Defined.

(** X11 at the same word. *)
Lemma cv_select_returns_from_two_sequences_witness :
  exists model, SelectorCV_select short_short_long = Ok model.
Proof.
  apply (cv_select_returns_from_two_sequences short_short_long).
  cbn. lia.
Defined.

(** X12 at the same word, three states. *)
Lemma avg_score_hands_back_last_fold_witness :
  exists x_train len_train avg,
    combine_sequences
      (seq 0 (length (sequences short_short_long)
              - length (sequences short_short_long) / n_split short_short_long))
      (sequences short_short_long) = Ok (x_train, len_train)
    /\ avg_score short_short_long 3
       = Ok (avg,
             Some (match fit (GaussianHMM_new 3 (random_state short_short_long)
                                              (verbose short_short_long))
                             x_train len_train with
                   | Ok hmm_model => hmm_model
                   | Raise _ =>
                       GaussianHMM_new 3 (random_state short_short_long)
                                       (verbose short_short_long)
                   end)).
Proof.
  apply (avg_score_hands_back_last_fold short_short_long 3).
  cbn. lia.
Defined.

(** X13 at the DIC selector of the flat index of two words. *)
Lemma returned_model_is_fitted_witness :
  is_fitted (fitted_with 2 false) = true
  /\ hmm_random_state (args (fitted_with 2 false)) = random_state fish_and_chips
  /\ min_n_components fish_and_chips <= n_components (args (fitted_with 2 false))
     <= max_n_components fish_and_chips.
Proof.
  apply (returned_model_is_fitted DIC fish_and_chips (fitted_with 2 false)).
  - discriminate.
  - reflexivity.
Defined.

(** X14 at the flat index of two words, two states. *)
Lemma dic_division_by_zero_iff_alone_witness :
  dic_score fish_and_chips 2 = Raise ZeroDivisionError
  <-> length (hwords fish_and_chips) = 1%nat.
Proof.
  apply (dic_division_by_zero_iff_alone
           fish_and_chips 2 (fitted_with 2 false) 5%float [2%float]);
    try reflexivity.
  unfold well_formed_dict. cbn.
  constructor.
  - intros [H|[]]. discriminate H.
  - constructor; [intros []|constructor].
Defined.

(** C6 at a word seen once, two states. *)
Lemma cv_makes_no_folds_below_two_sequences_witness :
  n_split seen_once = 2%nat
  /\ KFold_split (n_split seen_once) (length (sequences seen_once)) = Raise ValueError
  /\ avg_score seen_once 2 = Raise ValueError.
Proof.
  apply (cv_makes_no_folds_below_two_sequences seen_once 2).
  cbn. lia.
Defined.

End MoreRuns.
